(** * CareConnect: the donation ledger and the identity store

    A shallow embedding of the Express/SQLite backend (server file of the
    repository): the two relations created by [createTables], the SQL
    statements the route handlers issue, and the handlers themselves as
    functions from a connection state to a response and a new connection
    state.

    Conventions of the embedding.
    - A request is handled from its first statement to its response without
      another request's statements in between on the shared connection.
    - Body fields are the JSON strings (and, for [quantity], the JSON
      integer) the routes destructure; the [:userId] route parameter is the
      decimal text of an integer, which SQLite compares numerically with an
      INTEGER column, so it is an integer here.  [post_login] also takes a
      body without [password].
    - The handlers hold numbers as JavaScript Numbers.  The integers of the
      embedding are exact, as the code is for those that satisfy [js_exact];
      where a statement turns on the exact value of a quantity it carries
      [js_exact] as a hypothesis, and a statement about the id of a stored
      row speaks of the row, not of the number a response carries.
    - A statement whose callback tests [err] takes a [fault]: the message of
      a failure that comes from outside the tables (I/O, a locked file).  A
      failed statement changes nothing.  BEGIN, COMMIT and ROLLBACK are
      issued without a callback and are modelled by their effect.
    - [PRAGMA foreign_keys] is never switched on, so the FOREIGN KEY clause
      of [medicines] is declarative only. *)

From Stdlib Require Import ZArith List String Bool Lia.
From Stdlib Require Import Sorting.Sorted Sorting.Permutation.
Import ListNotations.
Open Scope string_scope.
Open Scope list_scope.
Open Scope Z_scope.

(** ** Rows of the two tables *)

Module User.
Record t := mk
  { id : Z;
    fullname : string;
    email : string;
    password : string;
    dob : string;
    phone : string;
    state : string }.
End User.

Module Medicine.
Record t := mk
  { id : Z;
    name : string;
    expiry_date : string;
    quantity : Z;
    donor_id : option Z;
    donor_email : string;
    donation_date : string }.

Definition with_donor_id (v : option Z) (m : t) : t :=
  mk (id m) (name m) (expiry_date m) (quantity m) v
     (donor_email m) (donation_date m).
End Medicine.

(** ** The database and the connection

    [seq_users] and [seq_medicines] are the rows of [sqlite_sequence] that
    AUTOINCREMENT maintains: the largest rowid ever given out.  A connection
    is in a transaction exactly when [saved] holds the tables as they were at
    BEGIN. *)

Record db := mkDb
  { users : list User.t;
    medicines : list Medicine.t;
    seq_users : Z;
    seq_medicines : Z }.

Record conn := mkConn
  { cur : db;
    saved : option db }.

Definition empty_db : db := mkDb [] [] 0 0.

(** The connection once [createTables] has run on a fresh file. *)
Definition init : conn := mkConn empty_db None.

(** ** Values, JSON bodies and responses *)

Inductive value :=
| VNull
| VInt (n : Z)
| VText (s : string).

Definition object := list (string * value).

Inductive body :=
| BObj (o : object)
| BArr (rows : list object).

Record response := mkResp
  { status : Z;
    json : body }.

Definition fault := option string.

Definition error_body (msg : string) : body := BObj [("error", VText msg)].

Definition opt_text (v : option string) : value :=
  match v with Some s => VText s | None => VNull end.

(** ** Transactions *)

Definition begin_transaction (c : conn) : conn :=
  match saved c with
  | None => mkConn (cur c) (Some (cur c))
  | Some _ => c
  end.

Definition rollback (c : conn) : conn :=
  match saved c with
  | Some d => mkConn d None
  | None => c
  end.

Definition commit (c : conn) : conn := mkConn (cur c) None.

(** A statement that changes the tables, inside or outside a transaction. *)
Definition with_cur (d : db) (c : conn) : conn := mkConn d (saved c).

(** ** Statements *)

Definition max_rowid (ids : list Z) : Z := fold_right Z.max 0 ids.

(** AUTOINCREMENT: one more than the largest rowid that ever existed. *)
Definition next_rowid (seq : Z) (ids : list Z) : Z :=
  Z.max seq (max_rowid ids) + 1.

Definition email_is (e : string) (u : User.t) : bool :=
  String.eqb (User.email u) e.

(** [SELECT ... FROM users WHERE email = ?] through [db.get]: first row. *)
Definition select_user_by_email (e : string) (d : db) : option User.t :=
  find (email_is e) (users d).

Definition unique_failed : string :=
  "SQLITE_CONSTRAINT: UNIQUE constraint failed: users.email".

(** [INSERT INTO users (fullname, email, password, dob, phone, state)]:
    the UNIQUE constraint on [email], then a fresh rowid. *)
Definition insert_user (fullname email password dob phone state : string)
    (d : db) : string + (Z * db) :=
  if existsb (email_is email) (users d) then inl unique_failed
  else
    let lastID := next_rowid (seq_users d) (map User.id (users d)) in
    inr (lastID,
         mkDb (users d ++
                 [User.mk lastID fullname email password dob phone state])
              (medicines d) lastID (seq_medicines d)).

(** [INSERT INTO medicines (name, expiry_date, quantity, donor_id,
    donor_email)]; [donation_date] takes its default, CURRENT_TIMESTAMP. *)
Definition insert_medicine (now : string) (name expiry_date : string)
    (quantity : Z) (donor_id : option Z) (donor_email : string)
    (d : db) : Z * db :=
  let lastID := next_rowid (seq_medicines d) (map Medicine.id (medicines d)) in
  (lastID,
   mkDb (users d)
        (medicines d ++
           [Medicine.mk lastID name expiry_date quantity donor_id
                        donor_email now])
        (seq_users d) lastID).

(** [donor_id = ?]: never true of a NULL. *)
Definition donated_by (userId : Z) (m : Medicine.t) : bool :=
  match Medicine.donor_id m with
  | Some i => i =? userId
  | None => false
  end.

Definition anonymize (userId : Z) (m : Medicine.t) : Medicine.t :=
  if donated_by userId m then Medicine.with_donor_id None m else m.

(** [UPDATE medicines SET donor_id = NULL WHERE donor_id = ?] *)
Definition update_donor_null (userId : Z) (d : db) : db :=
  mkDb (users d) (map (anonymize userId) (medicines d))
       (seq_users d) (seq_medicines d).

Definition has_id (userId : Z) (u : User.t) : bool := User.id u =? userId.

(** [DELETE FROM users WHERE id = ?]: the number of rows removed
    ([this.changes]) and the new tables. *)
Definition delete_user (userId : Z) (d : db) : Z * db :=
  (Z.of_nat (List.length (filter (has_id userId) (users d))),
   mkDb (filter (fun u => negb (has_id userId u)) (users d))
        (medicines d) (seq_users d) (seq_medicines d)).

(** ** ORDER BY ... DESC

    Text values are compared byte by byte (the BINARY collation), which is
    [String.leb].  SQLite leaves the order of rows with equal keys open; the
    insertion below keeps them in scan order. *)

Fixpoint insert_desc {A : Type} (key : A -> string) (x : A) (l : list A)
    : list A :=
  match l with
  | [] => [x]
  | y :: l' =>
      if String.leb (key y) (key x) then x :: y :: l'
      else y :: insert_desc key x l'
  end.

Definition order_by_desc {A : Type} (key : A -> string) (l : list A)
    : list A :=
  fold_right (insert_desc key) [] l.

(** ** Queries *)

(** [SELECT ... FROM medicines WHERE donor_id = ? ORDER BY donation_date
    DESC], before the projection. *)
Definition select_donations (userId : Z) (d : db) : list Medicine.t :=
  order_by_desc Medicine.donation_date
    (filter (donated_by userId) (medicines d)).

Definition donation_row (m : Medicine.t) : object :=
  [("id", VInt (Medicine.id m));
   ("name", VText (Medicine.name m));
   ("expiry_date", VText (Medicine.expiry_date m));
   ("quantity", VInt (Medicine.quantity m));
   ("donation_date", VText (Medicine.donation_date m))].

Definition joins (m : Medicine.t) (u : User.t) : bool :=
  match Medicine.donor_id m with
  | Some i => i =? User.id u
  | None => false
  end.

(** [medicines m LEFT JOIN users u ON m.donor_id = u.id]: a medicine with no
    matching user is kept once, with the user's columns NULL. *)
Definition left_join (ms : list Medicine.t) (us : list User.t)
    : list (Medicine.t * option User.t) :=
  flat_map
    (fun m =>
       match filter (joins m) us with
       | [] => [(m, None)]
       | matching => map (fun u => (m, Some u)) matching
       end)
    ms.

Definition joined_date (r : Medicine.t * option User.t) : string :=
  Medicine.donation_date (fst r).

Definition select_medicines (d : db) : list (Medicine.t * option User.t) :=
  order_by_desc joined_date (left_join (medicines d) (users d)).

Definition donor_name (r : Medicine.t * option User.t) : option string :=
  option_map User.fullname (snd r).

Definition medicine_row (r : Medicine.t * option User.t) : object :=
  let m := fst r in
  [("id", VInt (Medicine.id m));
   ("name", VText (Medicine.name m));
   ("expiry_date", VText (Medicine.expiry_date m));
   ("quantity", VInt (Medicine.quantity m));
   ("donation_date", VText (Medicine.donation_date m));
   ("donor_email", VText (Medicine.donor_email m));
   ("donor_name", opt_text (donor_name r))].

(** ** The route handlers *)

Section Handlers.

(** [bcrypt.hash(data, rounds)] with the salt it draws made explicit, and
    [bcrypt.compare(data, hash)]; both are opaque to the ledger. *)
Variable bcrypt_hash : string -> Z -> string -> string.
Variable bcrypt_compare : string -> string -> bool.

(** POST /register *)
Definition register (e_get e_run : fault) (salt : string)
    (fullname email password confirmPassword dob phone state : string)
    (c : conn) : response * conn :=
  if negb (String.eqb password confirmPassword) then
    (mkResp 400 (error_body "Passwords do not match"), c)
  else
    let hashedPassword := bcrypt_hash password 10 salt in
    match e_get with
    | Some msg => (mkResp 500 (error_body msg), c)
    | None =>
        match select_user_by_email email (cur c) with
        | Some _ => (mkResp 400 (error_body "Email already in use"), c)
        | None =>
            match e_run with
            | Some msg => (mkResp 500 (error_body msg), c)
            | None =>
                match insert_user fullname email hashedPassword dob phone
                                  state (cur c) with
                | inl msg => (mkResp 500 (error_body msg), c)
                | inr (lastID, d) =>
                    (mkResp 201
                       (BObj [("message",
                               VText "User registered successfully");
                              ("userId", VInt lastID)]),
                     with_cur d c)
                end
            end
        end
    end.

(** POST /login *)
Definition login (e_get : fault) (email password : string) (c : conn)
    : response * conn :=
  match e_get with
  | Some msg => (mkResp 500 (error_body msg), c)
  | None =>
      match select_user_by_email email (cur c) with
      | None => (mkResp 400 (error_body "Invalid email or password"), c)
      | Some user =>
          if negb (bcrypt_compare password (User.password user)) then
            (mkResp 400 (error_body "Invalid email or password"), c)
          else
            (mkResp 200
               (BObj [("message", VText "Login successful");
                      ("userId", VInt (User.id user));
                      ("email", VText (User.email user))]),
             c)
      end
  end.

(** DELETE /users/:userId *)
Definition delete_account (e_update e_delete : fault) (userId : Z)
    (c : conn) : response * conn :=
  let c1 := begin_transaction c in
  match e_update with
  | Some msg => (mkResp 500 (error_body msg), rollback c1)
  | None =>
      let c2 := with_cur (update_donor_null userId (cur c1)) c1 in
      match e_delete with
      | Some msg => (mkResp 500 (error_body msg), rollback c2)
      | None =>
          let (changes, d) := delete_user userId (cur c2) in
          let c3 := with_cur d c2 in
          if changes =? 0 then
            (mkResp 404 (error_body "User not found"), rollback c3)
          else
            (mkResp 200
               (BObj [("message", VText "Account deleted successfully")]),
             commit c3)
      end
  end.

(** GET /users/:userId/donations *)
Definition user_donations (e_all : fault) (userId : Z) (c : conn)
    : response * conn :=
  match e_all with
  | Some msg => (mkResp 500 (error_body msg), c)
  | None =>
      (mkResp 200 (BArr (map donation_row (select_donations userId (cur c)))),
       c)
  end.

(** POST /donate *)
Definition donate (e_get e_run : fault) (now : string)
    (medicineName expiry_date : string) (quantity : Z)
    (donor_email : string) (c : conn) : response * conn :=
  match e_get with
  | Some msg => (mkResp 500 (error_body msg), c)
  | None =>
      let donor_id :=
        match select_user_by_email donor_email (cur c) with
        | Some user => Some (User.id user)
        | None => None
        end in
      match e_run with
      | Some msg => (mkResp 500 (error_body msg), c)
      | None =>
          let (lastID, d) :=
            insert_medicine now medicineName expiry_date quantity donor_id
                            donor_email (cur c) in
          (mkResp 201
             (BObj [("message", VText "Medicine donated successfully");
                    ("donationId", VInt lastID)]),
           with_cur d c)
      end
  end.

(** GET /medicines *)
Definition list_medicines (e_all : fault) (c : conn) : response * conn :=
  match e_all with
  | Some msg => (mkResp 500 (error_body msg), c)
  | None =>
      (mkResp 200 (BArr (map medicine_row (select_medicines (cur c)))), c)
  end.

(** ** Requests and their sequences *)

Inductive op :=
| Register (e_get e_run : fault) (salt : string)
    (fullname email password confirmPassword dob phone state : string)
| Login (e_get : fault) (email password : string)
| DeleteAccount (e_update e_delete : fault) (userId : Z)
| UserDonations (e_all : fault) (userId : Z)
| Donate (e_get e_run : fault) (now : string)
    (medicineName expiry_date : string) (quantity : Z) (donor_email : string)
| ListMedicines (e_all : fault).

Definition exec (o : op) (c : conn) : response * conn :=
  match o with
  | Register e1 e2 salt fullname email password confirmPassword dob phone
             state =>
      register e1 e2 salt fullname email password confirmPassword dob phone
               state c
  | Login e email password => login e email password c
  | DeleteAccount e1 e2 userId => delete_account e1 e2 userId c
  | UserDonations e userId => user_donations e userId c
  | Donate e1 e2 now medicineName expiry_date quantity donor_email =>
      donate e1 e2 now medicineName expiry_date quantity donor_email c
  | ListMedicines e => list_medicines e c
  end.

(** The connection after a sequence of requests, first request first. *)
Definition run (os : list op) (c : conn) : conn :=
  fold_left (fun c o => snd (exec o c)) os c.

Inductive reachable : conn -> Prop :=
| reachable_init : reachable init
| reachable_step o c : reachable c -> reachable (snd (exec o c)).

End Handlers.

(** ** Invariant of the connection between two requests

    No transaction is open, and the PRIMARY KEY and UNIQUE constraints of the
    two tables hold. *)

Record wf (c : conn) : Prop := mk_wf
  { wf_idle : saved c = None;
    wf_user_ids : NoDup (map User.id (users (cur c)));
    wf_emails : NoDup (map User.email (users (cur c)));
    wf_medicine_ids : NoDup (map Medicine.id (medicines (cur c))) }.

(** Rows are in the order the handler sends them when each is at least as
    recent as the next. *)
Definition newest_first {A : Type} (key : A -> string) (l : list A) : Prop :=
  Sorted (fun a b => String.leb (key b) (key a) = true) l.

(** The record a donation id names. *)
Definition medicine_by_id (i : Z) (d : db) : option Medicine.t :=
  find (fun m => Medicine.id m =? i) (medicines d).

(** The account an id names. *)
Definition user_by_id (i : Z) (d : db) : option User.t :=
  find (has_id i) (users d).

(** What the handlers keep true on top of [wf]: no rowid exceeds the counter
    of its table, and a donor reference names an account in the table whose
    email is the record's [donor_email]. *)
Record consistent (c : conn) : Prop := mk_consistent
  { consistent_wf : wf c;
    consistent_user_seq :
      forall u, In u (users (cur c)) -> User.id u <= seq_users (cur c);
    consistent_medicine_seq :
      forall m, In m (medicines (cur c)) ->
                Medicine.id m <= seq_medicines (cur c);
    consistent_refs :
      forall m a, In m (medicines (cur c)) ->
                  Medicine.donor_id m = Some a ->
                  exists u, In u (users (cur c)) /\ User.id u = a /\
                            User.email u = Medicine.donor_email m }.

(** The value of a key of a JSON object. *)
Fixpoint field (k : string) (o : object) : option value :=
  match o with
  | [] => None
  | (k', v) :: o' => if String.eqb k' k then Some v else field k o'
  end.

(** The integers a JavaScript Number holds exactly.  Numbers of a request
    body are Numbers once [JSON.parse] has read them, and so is
    [this.lastID]: outside this range an integer may come out as a
    neighbour.  [donate] and [register] take and return integers as they
    are, which is what the code does within this range. *)
Definition js_exact (n : Z) : Prop := Z.abs n <= 2 ^ 53.

(** ** POST /register as its two callbacks

    Between the lookup ([db.get]) and the INSERT ([db.run]) the handler has
    returned to the event loop, and statements of another request can run
    on the connection.  [register_lookup] is the handler up to the decision
    of the [db.get] callback, [register_insert] the INSERT and its
    callback. *)

Record pending_insert := mkPending
  { ins_fullname : string;
    ins_email : string;
    ins_password : string;
    ins_dob : string;
    ins_phone : string;
    ins_state : string }.

(** What a request gets: a response, or none at all when a promise is
    rejected where no [try] encloses the [await]. *)
Inductive outcome :=
| Answered (r : response)
| Unhandled.

Section Callbacks.

Variable bcrypt_hash : string -> Z -> string -> string.
Variable bcrypt_compare : string -> string -> bool.

Definition register_lookup (e_get : fault) (salt : string)
    (fullname email password confirmPassword dob phone state : string)
    (c : conn) : response + pending_insert :=
  if negb (String.eqb password confirmPassword) then
    inl (mkResp 400 (error_body "Passwords do not match"))
  else
    let hashedPassword := bcrypt_hash password 10 salt in
    match e_get with
    | Some msg => inl (mkResp 500 (error_body msg))
    | None =>
        match select_user_by_email email (cur c) with
        | Some _ => inl (mkResp 400 (error_body "Email already in use"))
        | None =>
            inr (mkPending fullname email hashedPassword dob phone state)
        end
    end.

Definition register_insert (e_run : fault) (p : pending_insert) (c : conn)
    : response * conn :=
  match e_run with
  | Some msg => (mkResp 500 (error_body msg), c)
  | None =>
      match insert_user (ins_fullname p) (ins_email p) (ins_password p)
                        (ins_dob p) (ins_phone p) (ins_state p) (cur c) with
      | inl msg => (mkResp 500 (error_body msg), c)
      | inr (lastID, d) =>
          (mkResp 201
             (BObj [("message", VText "User registered successfully");
                    ("userId", VInt lastID)]),
           with_cur d c)
      end
  end.

(** POST /login for a body that may lack [password].  [bcrypt.compare]
    rejects its promise when the data is missing; the [await] sits in the
    [db.get] callback, outside the handler's [try], so nothing answers the
    request. *)
Definition post_login (e_get : fault) (email : string)
    (password : option string) (c : conn) : outcome * conn :=
  match e_get with
  | Some msg => (Answered (mkResp 500 (error_body msg)), c)
  | None =>
      match select_user_by_email email (cur c) with
      | None =>
          (Answered (mkResp 400 (error_body "Invalid email or password")), c)
      | Some user =>
          match password with
          | None => (Unhandled, c)
          | Some data =>
              if negb (bcrypt_compare data (User.password user)) then
                (Answered (mkResp 400
                             (error_body "Invalid email or password")), c)
              else
                (Answered
                   (mkResp 200
                      (BObj [("message", VText "Login successful");
                             ("userId", VInt (User.id user));
                             ("email", VText (User.email user))])),
                 c)
          end
      end
  end.

End Callbacks.

(** ** The donation form of the demo page (script.js)

    The page keeps an array [medicines] and shows it in the list element
    [#medicines].  [parseInt] and the conversion of a number in a template
    literal are the engine's; they and the type of numbers are parameters.
    A submit event carries the values of the two inputs; its outcome is the
    new page and the text of the alert, if one is raised. *)

Module Page.
Section Form.

Variable number : Type.
Variable parseInt : string -> Z -> number.
Variable template : number -> string.

Record medicine := mkMedicine
  { name : string;
    quantity : number }.

Record t := mk
  { medicines : list medicine;
    items : list string }.

(** The state when DOMContentLoaded fires: the array is empty, and the list
    element holds whatever the document put there. *)
Definition loaded (shown : list string) : t := mk [] shown.

(** A string is truthy unless it is empty. *)
Definition truthy (s : string) : bool := negb (String.eqb s "").

Definition textContent (m : medicine) : string :=
  (name m ++ " - " ++ template (quantity m))%string.

(** [innerHTML = ''], then one [li] appended per element of the array. *)
Definition updateMedicinesList (p : t) : t :=
  mk (medicines p)
     (fold_left (fun lis m => lis ++ [textContent m]) (medicines p) []).

Definition submit (medicineName quantity : string) (p : t)
    : t * option string :=
  if truthy medicineName && truthy quantity then
    let newMedicine := mkMedicine medicineName (parseInt quantity 10) in
    (updateMedicinesList (mk (medicines p ++ [newMedicine]) (items p)), None)
  else (p, Some "Please fill in all fields.").

(** The page after a sequence of submit events, first event first. *)
Definition submits (events : list (string * string)) (p : t) : t :=
  fold_left (fun p e => fst (submit (fst e) (snd e) p)) events p.

End Form.
End Page.

(** ** A sample instance

    A stand-in for bcrypt and a small store, used to exercise the theorems
    on concrete data. *)

Definition sample_hash (data : string) (rounds : Z) (salt : string) : string :=
  (salt ++ data)%string.

Definition sample_compare (data hash : string) : bool :=
  String.eqb hash ("salt" ++ data)%string.

Definition alice : User.t :=
  User.mk 1 "Alice" "a@x.com" "saltpw1" "1990-01-01" "555-0100" "Kerala".

Definition bob : User.t :=
  User.mk 2 "Bob" "b@x.com" "saltpw2" "1985-06-15" "555-0101" "Goa".

Definition aspirin : Medicine.t :=
  Medicine.mk 1 "Aspirin" "2025-01-01" 10 (Some 1) "a@x.com"
              "2024-05-01 09:30:00".

Definition ibuprofen : Medicine.t :=
  Medicine.mk 2 "Ibuprofen" "2026-03-01" 4 None "nobody@x.com"
              "2024-05-02 11:00:00".

Definition cetirizine : Medicine.t :=
  Medicine.mk 3 "Cetirizine" "2025-09-30" 7 (Some 1) "a@x.com"
              "2024-05-03 08:15:00".

Definition sample : conn :=
  mkConn (mkDb [alice; bob] [aspirin; ibuprofen; cetirizine] 2 3) None.

Definition sample_requests : list op :=
  [Donate None None "2024-06-01 12:00:00" "Paracetamol" "2026-01-01" 5
          "b@x.com";
   DeleteAccount None None 1;
   Register None None "salt" "Carol" "c@x.com" "pw3" "pw3" "1970-02-03"
            "555-0102" "Punjab"].

(** Requests that lead from the empty tables to a store with [alice] and
    her donation [aspirin]. *)
Definition sample_history : list op :=
  [Register None None "salt" "Alice" "a@x.com" "pw1" "pw1" "1990-01-01"
            "555-0100" "Kerala";
   Donate None None "2024-05-01 09:30:00" "Aspirin" "2025-01-01" 10
          "a@x.com"].


(** Distinctness of the entries of a list given in full, and the invariant
    of a store given in full. *)
Ltac distinct :=
  repeat (constructor; [simpl; intuition discriminate |]); constructor.

Ltac sample_wf := split; [reflexivity | distinct | distinct | distinct].

Ltac sample_consistent :=
  split;
  [ sample_wf
  | simpl; intros ? H; repeat destruct H as [<- | H]; try contradiction;
    simpl; lia
  | simpl; intros ? H; repeat destruct H as [<- | H]; try contradiction;
    simpl; lia
  | simpl; intros ? ? H; repeat destruct H as [<- | H]; try contradiction;
    simpl; intros E; try discriminate; injection E as <-;
    exists alice; simpl; auto ].

(** * Properties *)

(** ** Ordering *)

Section Ordering.
Context {A : Type} (key : A -> string).

Lemma insert_desc_perm (x : A) (l : list A) :
  Permutation (insert_desc key x l) (x :: l).
Proof.
  induction l as [|y l IH]; simpl.
  - apply Permutation_refl.
  - destruct (String.leb (key y) (key x)).
    + apply Permutation_refl.
    + eapply perm_trans; [apply perm_skip, IH | apply perm_swap].
Qed.

Lemma order_by_desc_perm (l : list A) : Permutation (order_by_desc key l) l.
Proof.
  induction l as [|x l IH]; simpl.
  - constructor.
  - eapply perm_trans; [apply insert_desc_perm | now apply perm_skip].
Qed.

Lemma order_by_desc_In (x : A) (l : list A) :
  In x (order_by_desc key l) <-> In x l.
Proof.
  split; apply Permutation_in;
    [| apply Permutation_sym]; apply order_by_desc_perm.
Qed.

Lemma insert_desc_sorted (x : A) (l : list A) :
  newest_first key l -> newest_first key (insert_desc key x l).
Proof.
  unfold newest_first.
  induction l as [|y l IH]; simpl; intros Hs.
  - repeat constructor.
  - destruct (String.leb (key y) (key x)) eqn:E.
    + constructor; [assumption | constructor; assumption].
    + inversion Hs as [|? ? Hl Hhd]; subst.
      constructor; [apply IH; assumption |].
      assert (Hxy : String.leb (key x) (key y) = true).
      { destruct (String.leb_total (key x) (key y)); congruence. }
      destruct l as [|z l]; simpl.
      * constructor; exact Hxy.
      * destruct (String.leb (key z) (key x)).
        -- constructor; exact Hxy.
        -- inversion Hhd; subst. constructor; assumption.
Qed.

Lemma order_by_desc_sorted (l : list A) :
  newest_first key (order_by_desc key l).
Proof.
  induction l as [|x l IH]; simpl.
  - constructor.
  - apply insert_desc_sorted, IH.
Qed.
End Ordering.

(** ** Row identifiers *)

Lemma max_rowid_ge (ids : list Z) (i : Z) : In i ids -> i <= max_rowid ids.
Proof.
  induction ids as [|j ids IH]; simpl; [tauto |].
  intros [-> | H]; [lia | specialize (IH H); lia].
Qed.

Lemma next_rowid_fresh (seq : Z) (ids : list Z) :
  ~ In (next_rowid seq ids) ids.
Proof.
  intros H. apply max_rowid_ge in H. unfold next_rowid in H. lia.
Qed.

Lemma NoDup_snoc {A : Type} (l : list A) (x : A) :
  NoDup l -> ~ In x l -> NoDup (l ++ [x]).
Proof.
  intros Hl Hx.
  apply (Permutation_NoDup (l := x :: l)).
  - apply Permutation_cons_append.
  - constructor; assumption.
Qed.

Lemma filter_keeps_distinct {Row Key : Type} (key : Row -> Key)
    (keep : Row -> bool) (rows : list Row)
    (Hdistinct : NoDup (map key rows)) :
  NoDup (map key (filter keep rows)).
Proof.
  induction rows as [|r rows IH]; simpl; [constructor |].
  inversion Hdistinct as [|? ? Hr Hrows]; subst.
  destruct (keep r); simpl; [constructor |]; auto.
  intros Hin. apply Hr.
  apply in_map_iff in Hin as (y & Hy & Hiny).
  apply in_map_iff. exists y. split; [assumption |].
  apply filter_In in Hiny. tauto.
Qed.

Lemma anonymize_id (userId : Z) (m : Medicine.t) :
  Medicine.id (anonymize userId m) = Medicine.id m.
Proof. unfold anonymize. destruct (donated_by userId m); reflexivity. Qed.

Lemma map_id_anonymize (userId : Z) (ms : list Medicine.t) :
  map Medicine.id (map (anonymize userId) ms) = map Medicine.id ms.
Proof.
  rewrite map_map. apply map_ext. intros m. apply anonymize_id.
Qed.

Lemma anonymize_not_donated (userId a : Z) (m : Medicine.t) :
  donated_by a (anonymize userId m) = true -> a <> userId.
Proof.
  unfold anonymize. destruct (donated_by userId m) eqn:E.
  - unfold donated_by. simpl. discriminate.
  - intros H ->. congruence.
Qed.

Lemma existsb_email_false (e : string) (us : list User.t) :
  existsb (email_is e) us = false -> ~ In e (map User.email us).
Proof.
  intros H Hin. apply in_map_iff in Hin as (u & Hu & Hin).
  assert (existsb (email_is e) us = true); [| congruence].
  apply existsb_exists. exists u. split; [assumption |].
  unfold email_is. now apply String.eqb_eq.
Qed.

Lemma find_email_none (e : string) (us : list User.t) :
  find (email_is e) us = None <-> existsb (email_is e) us = false.
Proof.
  induction us as [|u us IH]; simpl; [tauto |].
  destruct (email_is e u); simpl; [split; discriminate | exact IH].
Qed.

Lemma find_email_absent (e : string) (us : list User.t) :
  (forall u, In u us -> User.email u <> e) -> find (email_is e) us = None.
Proof.
  induction us as [|u us IH]; simpl; intros H; [reflexivity |].
  unfold email_is at 1.
  destruct (String.eqb_spec (User.email u) e) as [E | _].
  - exfalso. apply (H u); auto.
  - apply IH. intros v Hv. apply H. auto.
Qed.

Lemma find_email_unique (e : string) (us : list User.t) (u : User.t) :
  NoDup (map User.email us) -> In u us -> User.email u = e ->
  find (email_is e) us = Some u.
Proof.
  induction us as [|v us IH]; simpl; intros Hnd Hin He; [tauto |].
  inversion Hnd as [|? ? Hv Hnd']; subst.
  unfold email_is at 1.
  destruct Hin as [-> | Hin].
  - now rewrite String.eqb_refl.
  - destruct (String.eqb_spec (User.email v) (User.email u)) as [E | _].
    + exfalso. apply Hv. rewrite E. now apply in_map.
    + now apply IH.
Qed.

Lemma find_snoc_some {A : Type} (p : A -> bool) (l : list A) (x y : A) :
  find p l = Some y -> find p (l ++ [x]) = Some y.
Proof.
  induction l as [|z l IH]; simpl; [discriminate |].
  destruct (p z); auto.
Qed.

Lemma find_map_anonymize (userId i : Z) (ms : list Medicine.t)
    (m : Medicine.t) :
  find (fun m => Medicine.id m =? i) ms = Some m ->
  find (fun m => Medicine.id m =? i) (map (anonymize userId) ms)
  = Some (anonymize userId m).
Proof.
  induction ms as [|x ms IH]; simpl; [discriminate |].
  rewrite anonymize_id.
  destruct (Medicine.id x =? i); [congruence | exact IH].
Qed.


(** ** The left join *)

Lemma left_join_anonymous (m : Medicine.t) (ms : list Medicine.t)
    (us : list User.t) :
  In m ms -> Medicine.donor_id m = None -> In (m, None) (left_join ms us).
Proof.
  intros Hin Hnone. unfold left_join. apply in_flat_map.
  exists m. split; [assumption |].
  replace (filter (joins m) us) with (@nil User.t); [now left |].
  symmetry. induction us as [|u us IH]; simpl; [reflexivity |].
  unfold joins at 1. now rewrite Hnone.
Qed.

(** ** Transactions on an idle connection *)

Lemma idle_eta (c : conn) : saved c = None -> c = mkConn (cur c) None.
Proof. destruct c; simpl; intros ->; reflexivity. Qed.

Lemma cur_begin_transaction (c : conn) : cur (begin_transaction c) = cur c.
Proof. unfold begin_transaction. destruct (saved c); reflexivity. Qed.

Lemma changes_zero (userId : Z) (us : list User.t) :
  (Z.of_nat (List.length (filter (has_id userId) us)) =? 0)
  = negb (existsb (has_id userId) us).
Proof.
  induction us as [|u us IH]; simpl; [reflexivity |].
  destruct (has_id userId u); simpl; [reflexivity | exact IH].
Qed.

(** What DELETE /users/:userId amounts to when no transaction was open:
    ROLLBACK gives back the tables as they were at BEGIN. *)
Lemma delete_account_idle (e_update e_delete : fault) (userId : Z)
    (c : conn) :
  saved c = None ->
  delete_account e_update e_delete userId c =
  match e_update, e_delete with
  | Some msg, _ => (mkResp 500 (error_body msg), c)
  | None, Some msg => (mkResp 500 (error_body msg), c)
  | None, None =>
      if existsb (has_id userId) (users (cur c)) then
        (mkResp 200
           (BObj [("message", VText "Account deleted successfully")]),
         mkConn (mkDb (filter (fun u => negb (has_id userId u))
                              (users (cur c)))
                      (map (anonymize userId) (medicines (cur c)))
                      (seq_users (cur c)) (seq_medicines (cur c)))
                None)
      else (mkResp 404 (error_body "User not found"), c)
  end.
Proof.
  destruct c as [d s]. cbn [saved cur]. intros ->.
  unfold delete_account, begin_transaction. cbn [saved cur].
  destruct e_update; [reflexivity |].
  destruct e_delete; [reflexivity |].
  cbn [delete_user update_donor_null with_cur cur saved users medicines
       seq_users seq_medicines].
  rewrite changes_zero.
  destruct (existsb (has_id userId) (users d)); reflexivity.
Qed.

(** ** The invariant holds between any two requests *)

Lemma init_wf : wf init.
Proof. split; simpl; constructor. Qed.

Lemma insert_user_wf (fullname email password dob phone state : string)
    (c : conn) (lastID : Z) (d : db) :
  wf c ->
  insert_user fullname email password dob phone state (cur c)
  = inr (lastID, d) ->
  wf (with_cur d c).
Proof.
  intros [Hidle Hids Hemails Hmeds]. unfold insert_user.
  destruct (existsb (email_is email) (users (cur c))) eqn:E; [discriminate |].
  intros H. injection H as <- <-.
  split; cbn [with_cur cur saved users medicines]; try assumption.
  - rewrite map_app. apply NoDup_snoc; [assumption |].
    apply next_rowid_fresh.
  - rewrite map_app. apply NoDup_snoc; [assumption |].
    now apply existsb_email_false.
Qed.

Lemma insert_medicine_wf (now name expiry_date : string) (quantity : Z)
    (donor_id : option Z) (donor_email : string) (c : conn) :
  wf c ->
  wf (with_cur (snd (insert_medicine now name expiry_date quantity donor_id
                                     donor_email (cur c))) c).
Proof.
  intros [Hidle Hids Hemails Hmeds].
  split; cbn [insert_medicine snd with_cur cur saved users medicines];
    try assumption.
  rewrite map_app. apply NoDup_snoc; [assumption |].
  apply next_rowid_fresh.
Qed.

Lemma delete_account_wf (e_update e_delete : fault) (userId : Z) (c : conn) :
  wf c -> wf (snd (delete_account e_update e_delete userId c)).
Proof.
  intros Hwf. pose proof Hwf as [Hidle Hids Hemails Hmeds].
  rewrite delete_account_idle by assumption.
  destruct e_update; [assumption |].
  destruct e_delete; [assumption |].
  destruct (existsb (has_id userId) (users (cur c))); [| assumption].
  split; cbn [snd cur saved users medicines].
  - reflexivity.
  - now apply filter_keeps_distinct.
  - now apply filter_keeps_distinct.
  - now rewrite map_id_anonymize.
Qed.

Section Properties.

Variable bcrypt_hash : string -> Z -> string -> string.
Variable bcrypt_compare : string -> string -> bool.

Local Abbreviation exec := (exec bcrypt_hash bcrypt_compare).
Local Abbreviation run := (run bcrypt_hash bcrypt_compare).
Local Abbreviation reachable := (reachable bcrypt_hash bcrypt_compare).
Local Abbreviation register := (register bcrypt_hash).
Local Abbreviation login := (login bcrypt_compare).

Lemma exec_wf (o : op) (c : conn) : wf c -> wf (snd (exec o c)).
Proof.
  intros Hwf. destruct o; cbn [exec].
  - unfold register.
    destruct (negb (password =? confirmPassword)%string); [assumption |].
    destruct e_get; [assumption |].
    destruct (select_user_by_email email (cur c)); [assumption |].
    destruct e_run; [assumption |].
    destruct (insert_user _ _ _ _ _ _ _) as [msg | [lastID d]] eqn:E;
      [assumption |].
    eapply insert_user_wf; eassumption.
  - unfold login.
    destruct e_get; [assumption |].
    destruct (select_user_by_email email (cur c)); [| assumption].
    destruct (negb _); assumption.
  - now apply delete_account_wf.
  - unfold user_donations. destruct e_all; assumption.
  - unfold donate.
    destruct e_get; [assumption |].
    destruct e_run; [assumption |].
    match goal with
    | |- context [insert_medicine ?n ?a ?b ?q ?r ?e (cur c)] =>
        pose proof (insert_medicine_wf n a b q r e c Hwf) as H;
        destruct (insert_medicine n a b q r e (cur c)) as [lastID d]
    end.
    exact H.
  - unfold list_medicines. destruct e_all; assumption.
Qed.

Lemma run_wf (os : list op) (c : conn) : wf c -> wf (run os c).
Proof.
  revert c. induction os as [|o os IH]; intros c Hwf; [exact Hwf |].
  apply IH, exec_wf, Hwf.
Qed.

Lemma reachable_wf (c : conn) : reachable c -> wf c.
Proof.
  induction 1 as [|o c _ IH]; [apply init_wf | now apply exec_wf].
Qed.

Lemma run_app (os1 os2 : list op) (c : conn) :
  run (os1 ++ os2) c = run os2 (run os1 c).
Proof. apply fold_left_app. Qed.

Lemma reachable_run (os : list op) (c : conn) :
  reachable c -> reachable (run os c).
Proof.
  revert c. induction os as [|o os IH]; intros c Hc; [exact Hc |].
  apply IH. now constructor.
Qed.

(** ** Account deletion *)

(** C1.  When DELETE /users/:userId answers 200, the user's donation history
    is the empty array, and GET /medicines still lists every donation that
    referenced the account: same id, name, expiry date, quantity, date and
    donor_email, with donor_name null. *)
Theorem deleted_account_donations_survive (e_update e_delete : fault)
    (userId : Z) (c : conn) :
  status (fst (delete_account e_update e_delete userId c)) = 200 ->
  let c' := snd (delete_account e_update e_delete userId c) in
  fst (user_donations None userId c') = mkResp 200 (BArr []) /\
  exists rows,
    fst (list_medicines None c') = mkResp 200 (BArr rows) /\
    forall m,
      In m (medicines (cur c)) -> Medicine.donor_id m = Some userId ->
      In [("id", VInt (Medicine.id m));
          ("name", VText (Medicine.name m));
          ("expiry_date", VText (Medicine.expiry_date m));
          ("quantity", VInt (Medicine.quantity m));
          ("donation_date", VText (Medicine.donation_date m));
          ("donor_email", VText (Medicine.donor_email m));
          ("donor_name", VNull)] rows.
Proof.
  unfold delete_account.
  destruct e_update; [discriminate |].
  destruct e_delete; [discriminate |].
  cbn [delete_user].
  destruct (_ =? 0); [discriminate |].
  intros _.
  cbn [snd fst commit with_cur cur user_donations list_medicines].
  unfold select_donations, select_medicines.
  cbn [medicines users update_donor_null].
  rewrite !cur_begin_transaction.
  set (ms := map (anonymize userId) (medicines (cur c))).
  split.
  - replace (filter (donated_by userId) ms) with (@nil Medicine.t);
      [reflexivity |].
    symmetry. subst ms.
    induction (medicines (cur c)) as [|m l IH]; [reflexivity |].
    cbn [map filter].
    destruct (donated_by userId (anonymize userId m)) eqn:E; [| exact IH].
    now apply anonymize_not_donated in E.
  - eexists. split; [reflexivity |].
    intros m Hin Href.
    apply in_map_iff. exists (Medicine.with_donor_id None m, None).
    split; [reflexivity |].
    apply order_by_desc_In.
    apply left_join_anonymous; [| reflexivity].
    apply in_map_iff. exists m. split; [| assumption].
    unfold anonymize, donated_by. rewrite Href, Z.eqb_refl. reflexivity.
Qed.

(** C2.  On a connection with no transaction open, DELETE /users/:userId is
    all or nothing: either it answers 200, the account row is gone and every
    reference to it is NULL, or it answers an error and the connection is
    exactly as before.  In both cases the donation records are the same
    records, in the same order, differing at most in [donor_id]. *)
Theorem delete_account_atomic (e_update e_delete : fault) (userId : Z)
    (c : conn) :
  saved c = None ->
  let r := fst (delete_account e_update e_delete userId c) in
  let c' := snd (delete_account e_update e_delete userId c) in
  ((status r = 200 /\
    saved c' = None /\
    users (cur c') = filter (fun u => negb (has_id userId u)) (users (cur c)) /\
    medicines (cur c') = map (anonymize userId) (medicines (cur c)) /\
    (forall u, In u (users (cur c')) -> User.id u <> userId) /\
    (forall m, In m (medicines (cur c')) ->
               Medicine.donor_id m <> Some userId))
   \/
   (status r <> 200 /\ c' = c)) /\
  map (Medicine.with_donor_id None) (medicines (cur c'))
  = map (Medicine.with_donor_id None) (medicines (cur c)).
Proof.
  intros Hidle. cbv zeta. rewrite delete_account_idle by assumption.
  destruct e_update as [msg |];
    [split; [right; split; [discriminate | reflexivity] | reflexivity] |].
  destruct e_delete as [msg |];
    [split; [right; split; [discriminate | reflexivity] | reflexivity] |].
  destruct (existsb (has_id userId) (users (cur c)));
    [| split; [right; split; [discriminate | reflexivity] | reflexivity]].
  cbn [fst snd cur saved users medicines status].
  split.
  - left. repeat split.
    + intros u Hu E. apply filter_In in Hu as [_ Hu].
      unfold has_id in Hu. apply Z.eqb_eq in E. rewrite E in Hu. discriminate.
    + intros m Hm E. apply in_map_iff in Hm as (m0 & <- & _).
      assert (H : donated_by userId (anonymize userId m0) = true).
      { unfold donated_by. rewrite E. apply Z.eqb_refl. }
      now apply anonymize_not_donated in H.
  - rewrite map_map. apply map_ext. intros m.
    unfold anonymize. destruct (donated_by userId m); reflexivity.
Qed.

(** C9.  For an id no account has, on a connection with no transaction open,
    DELETE /users/:userId leaves the connection as it was whatever the
    statements report, and answers 404 'User not found' when they report no
    failure; the UPDATE issued before the DELETE is undone by the ROLLBACK. *)
Theorem delete_unknown_account (e_update e_delete : fault) (userId : Z)
    (c : conn) :
  saved c = None ->
  (forall u, In u (users (cur c)) -> User.id u <> userId) ->
  snd (delete_account e_update e_delete userId c) = c /\
  status (fst (delete_account e_update e_delete userId c)) <> 200 /\
  delete_account None None userId c
  = (mkResp 404 (error_body "User not found"), c).
Proof.
  intros Hidle Hnone. rewrite !delete_account_idle by assumption.
  assert (E : existsb (has_id userId) (users (cur c)) = false).
  { destruct (existsb _ _) eqn:E; [| reflexivity].
    apply existsb_exists in E as (u & Hu & Hid).
    apply Z.eqb_eq in Hid. now apply Hnone in Hu. }
  rewrite E.
  destruct e_update; [repeat split; discriminate |].
  destruct e_delete; repeat split; discriminate.
Qed.

(** ** Donations *)

(** C3.  POST /donate looks the donor up by email.  With the UNIQUE
    constraint on emails in force, the reference it stores is the id of the
    account that has this email, and NULL when no account has it.  When no
    statement reports a failure the answer is 201 in both cases and the new
    record carries [donor_email] as sent; an answer other than 201 comes
    from a failure a statement reported, never from the lookup finding
    nothing, and then nothing is stored. *)
Theorem donate_links_by_email (e_get e_run : fault)
    (now medicineName expiry_date : string) (quantity : Z)
    (donor_email : string) (c : conn) :
  wf c ->
  let r := fst (donate e_get e_run now medicineName expiry_date quantity
                       donor_email c) in
  let c' := snd (donate e_get e_run now medicineName expiry_date quantity
                        donor_email c) in
  exists donor_id,
    (forall u, In u (users (cur c)) -> User.email u = donor_email ->
               donor_id = Some (User.id u)) /\
    ((forall u, In u (users (cur c)) -> User.email u <> donor_email) ->
     donor_id = None) /\
    (e_get = None -> e_run = None ->
     exists lastID,
       r = mkResp 201 (BObj [("message", VText "Medicine donated successfully");
                             ("donationId", VInt lastID)]) /\
       users (cur c') = users (cur c) /\
       medicines (cur c') =
         medicines (cur c) ++
           [Medicine.mk lastID medicineName expiry_date quantity donor_id
                        donor_email now]) /\
    (status r <> 201 -> (e_get <> None \/ e_run <> None) /\ c' = c).
Proof.
  intros Hwf. cbv zeta.
  exists (match select_user_by_email donor_email (cur c) with
          | Some user => Some (User.id user)
          | None => None
          end).
  split; [| split; [| split]].
  - intros u Hin He. unfold select_user_by_email.
    rewrite (find_email_unique donor_email _ u (wf_emails c Hwf) Hin He).
    reflexivity.
  - intros Hnone. unfold select_user_by_email.
    now rewrite find_email_absent.
  - intros -> ->. unfold donate, insert_medicine. eexists.
    cbn [fst snd with_cur cur users medicines]. repeat split.
  - unfold donate.
    destruct e_get; [intros _; split; [left; discriminate | reflexivity] |].
    destruct e_run; [intros _; split; [right; discriminate | reflexivity] |].
    unfold insert_medicine. cbn [fst status]. intros H. now elim H.
Qed.

(** C5, as the code has it.  A donation answered with 201 appends one record.
    When the quantity of the request is an integer a JavaScript Number
    holds exactly, the record's quantity is that integer, whatever its
    sign. *)
Theorem donate_stores_quantity (e_get e_run : fault)
    (now medicineName expiry_date : string) (quantity : Z)
    (donor_email : string) (c : conn) :
  js_exact quantity ->
  status (fst (donate e_get e_run now medicineName expiry_date quantity
                      donor_email c)) = 201 ->
  exists m,
    medicines (cur (snd (donate e_get e_run now medicineName expiry_date
                                quantity donor_email c)))
    = medicines (cur c) ++ [m] /\
    Medicine.quantity m = quantity.
Proof.
  intros _. unfold donate. destruct e_get; [discriminate |].
  destruct e_run; [discriminate |].
  intros _. unfold insert_medicine. cbn [snd with_cur cur medicines].
  eexists. split; reflexivity.
Qed.

(** ** The donor reference of a record over time *)

Lemma exec_medicine_step (o : op) (c : conn) (i : Z) (m : Medicine.t) :
  saved c = None ->
  medicine_by_id i (cur c) = Some m ->
  exists m',
    medicine_by_id i (cur (snd (exec o c))) = Some m' /\
    (m' = m \/
     exists e1 e2 a,
       o = DeleteAccount e1 e2 a /\
       status (fst (exec o c)) = 200 /\
       Medicine.donor_id m = Some a /\
       m' = Medicine.with_donor_id None m).
Proof.
  intros Hidle Hm. destruct o; cbn [exec].
  - exists m. split; [| now left].
    unfold register.
    destruct (negb (password =? confirmPassword)%string); [assumption |].
    destruct e_get; [assumption |].
    destruct (select_user_by_email email (cur c)); [assumption |].
    destruct e_run; [assumption |].
    unfold insert_user.
    destruct (existsb (email_is email) (users (cur c))); assumption.
  - exists m. split; [| now left].
    unfold login. destruct e_get; [assumption |].
    destruct (select_user_by_email email (cur c)); [| assumption].
    destruct (negb _); assumption.
  - rewrite delete_account_idle by assumption.
    destruct e_update; [exists m; split; [assumption | now left] |].
    destruct e_delete; [exists m; split; [assumption | now left] |].
    destruct (existsb (has_id userId) (users (cur c)));
      [| exists m; split; [assumption | now left]].
    exists (anonymize userId m). split.
    + unfold medicine_by_id. cbn [snd cur medicines].
      now apply find_map_anonymize.
    + unfold anonymize, donated_by.
      destruct (Medicine.donor_id m) as [a |] eqn:E; [| now left].
      destruct (Z.eqb_spec a userId) as [-> | _]; [| now left].
      right. exists None, None, userId. repeat split.
  - exists m. split; [| now left].
    unfold user_donations. destruct e_all; assumption.
  - exists m. split; [| now left].
    unfold donate. destruct e_get; [assumption |].
    destruct e_run; [assumption |].
    unfold insert_medicine, medicine_by_id. cbn [snd with_cur cur medicines].
    now apply find_snoc_some.
  - exists m. split; [| now left].
    unfold list_medicines. destruct e_all; assumption.
Qed.

(** C4.  From any state between two requests and over any sequence of
    requests, a donation record stays in the table and is either untouched
    or differs only in that a reference to account [a] became NULL, and then
    the sequence holds a DELETE /users/a; a NULL reference stays NULL.  One
    request changes a record only if it is a DELETE of the referenced
    account answered with 200.  A donation whose email finds no account is
    stored with a NULL reference. *)
Theorem donor_reference_one_way (os : list op) (c : conn) (i : Z)
    (m : Medicine.t) :
  wf c ->
  medicine_by_id i (cur c) = Some m ->
  (exists m',
     medicine_by_id i (cur (run os c)) = Some m' /\
     (Medicine.donor_id m = None -> Medicine.donor_id m' = None) /\
     (m' = m \/
      exists a,
        Medicine.donor_id m = Some a /\
        m' = Medicine.with_donor_id None m /\
        exists e1 e2, In (DeleteAccount e1 e2 a) os)) /\
  (forall o, exists m',
     medicine_by_id i (cur (snd (exec o c))) = Some m' /\
     (m' = m \/
      exists e1 e2 a,
        o = DeleteAccount e1 e2 a /\
        status (fst (exec o c)) = 200 /\
        Medicine.donor_id m = Some a /\
        m' = Medicine.with_donor_id None m)) /\
  (forall e_get e_run now medicineName expiry_date quantity donor_email,
     select_user_by_email donor_email (cur c) = None ->
     let c' := snd (donate e_get e_run now medicineName expiry_date quantity
                           donor_email c) in
     c' = c \/
     exists lastID,
       medicines (cur c') =
         medicines (cur c) ++
           [Medicine.mk lastID medicineName expiry_date quantity None
                        donor_email now]).
Proof.
  intros Hwf Hm. split; [| split].
  - revert c m Hwf Hm.
    induction os as [|o os IH]; intros c m Hwf Hm.
    + exists m. repeat split; auto.
    + destruct (exec_medicine_step o c i m (wf_idle c Hwf) Hm)
        as (m1 & Hm1 & Hstep).
      destruct (IH (snd (exec o c)) m1 (exec_wf o c Hwf) Hm1)
        as (m' & Hm' & Hnull & Hrest).
      exists m'. split; [exact Hm' |].
      destruct Hstep as [-> | (e1 & e2 & a & -> & _ & Ha & ->)].
      * split; [exact Hnull |].
        destruct Hrest as [-> | (a & Ha & -> & e1 & e2 & Hin)];
          [now left |].
        right. exists a. repeat split; auto.
        exists e1, e2. now right.
      * assert (E : m' = Medicine.with_donor_id None m).
        { destruct Hrest as [-> | (b & Hb & _)];
            [reflexivity | discriminate]. }
        subst m'. split; [reflexivity |].
        right. exists a. repeat split; auto.
        exists e1, e2. now left.
  - intros o. apply exec_medicine_step; [apply Hwf | exact Hm].
  - intros e_get e_run now medicineName expiry_date quantity donor_email Hq.
    cbv zeta. unfold donate.
    destruct e_get; [now left |].
    destruct e_run; [now left |].
    right. rewrite Hq. unfold insert_medicine.
    eexists. reflexivity.
Qed.

(** ** Registration and login *)

(** With the password a string: a login whose email no account has and a
    login whose email is found but whose password does not verify get the
    same response: status
    400 with the one field error = 'Invalid email or password'. *)
Theorem login_failures_indistinguishable (c1 c2 : conn)
    (email1 password1 email2 password2 : string) (user : User.t) :
  (forall u, In u (users (cur c1)) -> User.email u <> email1) ->
  select_user_by_email email2 (cur c2) = Some user ->
  bcrypt_compare password2 (User.password user) = false ->
  fst (login None email1 password1 c1) = fst (login None email2 password2 c2)
  /\
  fst (login None email1 password1 c1)
  = mkResp 400 (BObj [("error", VText "Invalid email or password")]).
Proof.
  intros Hnone Hsome Hcmp. unfold login, select_user_by_email.
  rewrite (find_email_absent email1 _ Hnone).
  unfold select_user_by_email in Hsome. rewrite Hsome, Hcmp.
  split; reflexivity.
Qed.

(** C8.  A login answered with 200 found an account with the email sent,
    whose stored hash verifies the password; its body has exactly the
    fields message, userId and email, the last two being the account's id
    and email.  No field carries the stored hash or the password sent, and
    the tables are not changed. *)
Theorem login_success_body (e_get : fault) (email password : string)
    (c : conn) :
  status (fst (login e_get email password c)) = 200 ->
  exists user,
    select_user_by_email email (cur c) = Some user /\
    User.email user = email /\
    bcrypt_compare password (User.password user) = true /\
    login e_get email password c
    = (mkResp 200 (BObj [("message", VText "Login successful");
                         ("userId", VInt (User.id user));
                         ("email", VText email)]),
       c).
Proof.
  unfold login. destruct e_get; [discriminate |].
  destruct (select_user_by_email email (cur c)) as [user |] eqn:E;
    [| discriminate].
  destruct (bcrypt_compare password (User.password user)) eqn:B;
    [| discriminate].
  intros _. exists user.
  assert (He : User.email user = email).
  { unfold select_user_by_email in E. apply find_some in E as [_ E].
    now apply String.eqb_eq in E. }
  rewrite He. repeat split; assumption.
Qed.

End Properties.

(** * Further properties of the handlers *)

(** ** What a 201 means *)

Lemma next_rowid_above (seq : Z) (ids : list Z) :
  seq < next_rowid seq ids /\ forall i, In i ids -> i < next_rowid seq ids.
Proof.
  unfold next_rowid. split; [lia |].
  intros i Hi. apply max_rowid_ge in Hi. lia.
Qed.

Lemma find_snoc_new {A : Type} (p : A -> bool) (l : list A) (x : A) :
  find p l = None -> p x = true -> find p (l ++ [x]) = Some x.
Proof.
  intros Hl Hx. induction l as [|z l IH]; simpl in *.
  - now rewrite Hx.
  - destruct (p z); [discriminate | auto].
Qed.

Lemma distinct_keys_inj {Row Key : Type} (key : Row -> Key)
    (rows : list Row) (r1 r2 : Row) :
  NoDup (map key rows) -> In r1 rows -> In r2 rows -> key r1 = key r2 ->
  r1 = r2.
Proof.
  induction rows as [|r rows IH]; simpl; [tauto |].
  intros Hd H1 H2 E. inversion Hd as [|? ? Hr Hrows]; subst.
  destruct H1 as [-> | H1], H2 as [-> | H2]; auto.
  - exfalso. apply Hr. rewrite E. now apply in_map.
  - exfalso. apply Hr. rewrite <- E. now apply in_map.
Qed.

Section Inversions.

Variable bcrypt_hash : string -> Z -> string -> string.

(** The only way POST /register answers 201. *)
Lemma register_created (e_get e_run : fault)
    (salt fullname email password confirmPassword dob phone state : string)
    (c : conn) :
  status (fst (register bcrypt_hash e_get e_run salt fullname email password
                        confirmPassword dob phone state c)) = 201 ->
  let n := next_rowid (seq_users (cur c)) (map User.id (users (cur c))) in
  password = confirmPassword /\ e_get = None /\ e_run = None /\
  select_user_by_email email (cur c) = None /\
  register bcrypt_hash e_get e_run salt fullname email password
           confirmPassword dob phone state c
  = (mkResp 201 (BObj [("message", VText "User registered successfully");
                       ("userId", VInt n)]),
     with_cur (mkDb (users (cur c) ++
                       [User.mk n fullname email
                                (bcrypt_hash password 10 salt) dob phone
                                state])
                    (medicines (cur c)) n (seq_medicines (cur c)))
              c).
Proof.
  unfold register.
  destruct (String.eqb_spec password confirmPassword) as [Hpw | _];
    [| discriminate].
  cbn [negb]. destruct e_get; [discriminate |].
  destruct (select_user_by_email email (cur c)) eqn:Hsel; [discriminate |].
  destruct e_run; [discriminate |].
  unfold insert_user.
  destruct (existsb (email_is email) (users (cur c))); [discriminate |].
  intros _. cbv zeta. repeat split. exact Hpw.
Qed.

End Inversions.

(** The only way POST /donate answers 201. *)
Lemma donate_created (e_get e_run : fault)
    (now medicineName expiry_date : string) (quantity : Z)
    (donor_email : string) (c : conn) :
  status (fst (donate e_get e_run now medicineName expiry_date quantity
                      donor_email c)) = 201 ->
  let n := next_rowid (seq_medicines (cur c))
                      (map Medicine.id (medicines (cur c))) in
  e_get = None /\ e_run = None /\
  donate e_get e_run now medicineName expiry_date quantity donor_email c
  = (mkResp 201 (BObj [("message", VText "Medicine donated successfully");
                       ("donationId", VInt n)]),
     with_cur (mkDb (users (cur c))
                    (medicines (cur c) ++
                       [Medicine.mk n medicineName expiry_date quantity
                          (option_map User.id
                             (select_user_by_email donor_email (cur c)))
                          donor_email now])
                    (seq_users (cur c)) n)
              c).
Proof.
  unfold donate.
  destruct e_get; [discriminate |]. destruct e_run; [discriminate |].
  intros _. cbv zeta. unfold insert_medicine.
  destruct (select_user_by_email donor_email (cur c)); repeat split.
Qed.

(** ** The stronger invariant *)

Lemma init_consistent : consistent init.
Proof.
  split; [apply init_wf | | |]; simpl; tauto.
Qed.

Lemma anonymize_keeps (userId a : Z) (m : Medicine.t) :
  Medicine.donor_id (anonymize userId m) = Some a ->
  anonymize userId m = m /\ a <> userId.
Proof.
  unfold anonymize, donated_by.
  destruct (Medicine.donor_id m) as [b |] eqn:E; [| now rewrite E].
  destruct (Z.eqb_spec b userId) as [-> | Hb]; [discriminate |].
  rewrite E. intros H. injection H as <-. now split.
Qed.

Lemma delete_account_consistent (e_update e_delete : fault) (userId : Z)
    (c : conn) :
  consistent c ->
  consistent (snd (delete_account e_update e_delete userId c)).
Proof.
  intros Hc. pose proof Hc as [Hwf Hus Hms Hrefs].
  split; [now apply delete_account_wf | | |];
    rewrite delete_account_idle by apply Hwf;
    (destruct e_update; [assumption |]);
    (destruct e_delete; [assumption |]);
    (destruct (existsb (has_id userId) (users (cur c))); [| assumption]);
    cbn [snd cur users medicines seq_users seq_medicines].
  - intros u Hu. apply filter_In in Hu as [Hu _]. auto.
  - intros m Hm. apply in_map_iff in Hm as (m0 & <- & Hm0).
    rewrite anonymize_id. auto.
  - intros m a Hm Ha. apply in_map_iff in Hm as (m0 & <- & Hm0).
    apply anonymize_keeps in Ha as Hkeep. destruct Hkeep as [Hsame Hne].
    rewrite Hsame in *.
    destruct (Hrefs m0 a Hm0 Ha) as (u & Hu & Hid & Hemail).
    exists u. split; [| now split].
    apply filter_In. split; [assumption |].
    unfold has_id. rewrite Hid.
    now destruct (Z.eqb_spec a userId).
Qed.

Section Invariant.

Variable bcrypt_hash : string -> Z -> string -> string.
Variable bcrypt_compare : string -> string -> bool.

Lemma exec_consistent (o : op) (c : conn) :
  consistent c -> consistent (snd (exec bcrypt_hash bcrypt_compare o c)).
Proof.
  intros Hc.
  assert (Hwf' := exec_wf bcrypt_hash bcrypt_compare o c (consistent_wf c Hc)).
  destruct o; cbn [exec] in *.
  - destruct (Z.eq_dec
                (status (fst (register bcrypt_hash e_get e_run salt fullname
                                       email password confirmPassword dob
                                       phone state c))) 201) as [E | E].
    + apply register_created in E as (_ & _ & _ & _ & E).
      cbv zeta in E. rewrite E in *. cbn [snd] in *.
      destruct Hc as [_ Hus Hms Hrefs].
      pose proof (next_rowid_above (seq_users (cur c))
                    (map User.id (users (cur c)))) as [Hseq Hids].
      split; [exact Hwf' | | |];
        cbn [with_cur cur users medicines seq_users seq_medicines].
      * intros u Hu. apply in_app_or in Hu as [Hu | [<- | []]].
        -- apply Hus in Hu. lia.
        -- cbn. lia.
      * exact Hms.
      * intros m a Hm Ha.
        destruct (Hrefs m a Hm Ha) as (u & Hu & Hrest).
        exists u. split; [apply in_or_app; now left | exact Hrest].
    + replace (snd (register bcrypt_hash e_get e_run salt fullname email
                             password confirmPassword dob phone state c))
        with c; [exact Hc |].
      revert E. unfold register.
      destruct (negb (password =? confirmPassword)%string); [reflexivity |].
      destruct e_get; [reflexivity |].
      destruct (select_user_by_email email (cur c)); [reflexivity |].
      destruct e_run; [reflexivity |].
      destruct (insert_user _ _ _ _ _ _ _) as [msg | [lastID d]];
        [reflexivity |].
      intros E. now elim E.
  - replace (snd (login bcrypt_compare e_get email password c)) with c;
      [exact Hc |].
    unfold login. destruct e_get; [reflexivity |].
    destruct (select_user_by_email email (cur c)); [| reflexivity].
    destruct (negb _); reflexivity.
  - now apply delete_account_consistent.
  - unfold user_donations. destruct e_all; exact Hc.
  - destruct (Z.eq_dec
                (status (fst (donate e_get e_run now medicineName expiry_date
                                     quantity donor_email c))) 201)
      as [E | E].
    + apply donate_created in E as (_ & _ & E).
      cbv zeta in E. rewrite E in *. cbn [snd] in *.
      destruct Hc as [_ Hus Hms Hrefs].
      pose proof (next_rowid_above (seq_medicines (cur c))
                    (map Medicine.id (medicines (cur c)))) as [Hseq Hids].
      split; [exact Hwf' | | |];
        cbn [with_cur cur users medicines seq_users seq_medicines].
      * exact Hus.
      * intros m Hm. apply in_app_or in Hm as [Hm | [<- | []]].
        -- apply Hms in Hm. lia.
        -- cbn. lia.
      * intros m a Hm Ha. apply in_app_or in Hm as [Hm | [<- | []]].
        -- now apply Hrefs.
        -- cbn [Medicine.donor_id Medicine.donor_email] in *.
           destruct (select_user_by_email donor_email (cur c)) as [u |]
             eqn:Hsel; [| discriminate].
           injection Ha as <-.
           apply find_some in Hsel as [Hu He].
           exists u. split; [exact Hu |]. split; [reflexivity |].
           now apply String.eqb_eq in He.
    + replace (snd (donate e_get e_run now medicineName expiry_date quantity
                           donor_email c)) with c; [exact Hc |].
      revert E. unfold donate.
      destruct e_get; [reflexivity |]. destruct e_run; [reflexivity |].
      unfold insert_medicine. cbn [fst status]. intros E. now elim E.
  - unfold list_medicines. destruct e_all; exact Hc.
Qed.

Lemma run_consistent (os : list op) (c : conn) :
  consistent c -> consistent (run bcrypt_hash bcrypt_compare os c).
Proof.
  revert c. induction os as [|o os IH]; intros c Hc; [exact Hc |].
  apply IH, exec_consistent, Hc.
Qed.

Lemma reachable_consistent (c : conn) :
  reachable bcrypt_hash bcrypt_compare c -> consistent c.
Proof.
  induction 1 as [|o c _ IH];
    [apply init_consistent | now apply exec_consistent].
Qed.

End Invariant.

(** ** Lookups by id *)


Lemma find_id_unique (us : list User.t) (u : User.t) :
  NoDup (map User.id us) -> In u us -> find (has_id (User.id u)) us = Some u.
Proof.
  induction us as [|v us IH]; simpl; intros Hd Hin; [tauto |].
  inversion Hd as [|? ? Hv Hd']; subst. unfold has_id at 1.
  destruct Hin as [-> | Hin]; [now rewrite Z.eqb_refl |].
  destruct (Z.eqb_spec (User.id v) (User.id u)) as [E | _]; [| auto].
  exfalso. apply Hv. rewrite E. now apply in_map.
Qed.

Lemma find_id_filter (i userId : Z) (us : list User.t) :
  find (has_id i) (filter (fun u => negb (has_id userId u)) us)
  = if i =? userId then None else find (has_id i) us.
Proof.
  induction us as [|u us IH]; simpl; [now destruct (i =? userId) |].
  destruct (has_id userId u) eqn:Eu; simpl.
  - rewrite IH. destruct (Z.eqb_spec i userId) as [Ei | Ei]; [reflexivity |].
    destruct (has_id i u) eqn:Ei'; [| reflexivity].
    unfold has_id in *. apply Z.eqb_eq in Eu, Ei'. lia.
  - destruct (has_id i u) eqn:Ei'; [| exact IH].
    destruct (Z.eqb_spec i userId) as [Ei | Ei]; [| reflexivity].
    unfold has_id in *. apply Z.eqb_eq in Ei'. apply Z.eqb_neq in Eu. lia.
Qed.

Lemma find_joins (m : Medicine.t) (us : list User.t) :
  find (joins m) us
  = match Medicine.donor_id m with
    | Some a => find (has_id a) us
    | None => None
    end.
Proof.
  unfold joins, has_id. destruct (Medicine.donor_id m) as [a |].
  - induction us as [|u us IH]; simpl; [reflexivity |].
    rewrite (Z.eqb_sym a (User.id u)), IH. reflexivity.
  - induction us; simpl; auto.
Qed.

Lemma filter_joins_find (m : Medicine.t) (us : list User.t) :
  NoDup (map User.id us) ->
  filter (joins m) us
  = match find (joins m) us with Some u => [u] | None => [] end.
Proof.
  induction us as [|u us IH]; simpl; intros Hd; [reflexivity |].
  inversion Hd as [|? ? Hu Hd']; subst.
  destruct (joins m u) eqn:E; [| auto].
  f_equal.
  destruct (filter (joins m) us) as [|v vs] eqn:F; [reflexivity |].
  exfalso. apply Hu.
  assert (Hv : In v (filter (joins m) us)) by (rewrite F; now left).
  apply filter_In in Hv as [Hin Hj].
  unfold joins in E, Hj. destruct (Medicine.donor_id m); [| discriminate].
  apply Z.eqb_eq in E, Hj. rewrite <- E, Hj. now apply in_map.
Qed.

Lemma left_join_lookup (ms : list Medicine.t) (us : list User.t) :
  NoDup (map User.id us) ->
  left_join ms us = map (fun m => (m, find (joins m) us)) ms.
Proof.
  intros Hd. unfold left_join.
  induction ms as [|m ms IH]; [reflexivity |].
  cbn [flat_map]. rewrite IH, (filter_joins_find m us Hd), map_cons.
  destruct (find (joins m) us); reflexivity.
Qed.

Lemma left_join_named (m : Medicine.t) (u : User.t) (ms : list Medicine.t)
    (us : list User.t) :
  NoDup (map User.id us) -> In m ms -> In u us ->
  Medicine.donor_id m = Some (User.id u) ->
  In (m, Some u) (left_join ms us).
Proof.
  intros Hd Hm Hu Href. rewrite left_join_lookup by assumption.
  apply in_map_iff. exists m. split; [| assumption].
  rewrite find_joins, Href, find_id_unique; auto.
Qed.

(** ** What one request can do to the tables *)

Section Cases.

Variable bcrypt_hash : string -> Z -> string -> string.
Variable bcrypt_compare : string -> string -> bool.

Lemma exec_cases (o : op) (c : conn) :
  saved c = None ->
  let r := fst (exec bcrypt_hash bcrypt_compare o c) in
  let c' := snd (exec bcrypt_hash bcrypt_compare o c) in
  c' = c \/
  (status r = 201 /\
   exists e1 e2 salt fullname email password confirmPassword dob phone state,
     o = Register e1 e2 salt fullname email password confirmPassword dob phone
                  state /\
     let n := next_rowid (seq_users (cur c)) (map User.id (users (cur c))) in
     c' = mkConn (mkDb (users (cur c) ++
                          [User.mk n fullname email
                                   (bcrypt_hash password 10 salt) dob phone
                                   state])
                       (medicines (cur c)) n (seq_medicines (cur c)))
                 None) \/
  (status r = 201 /\
   exists e1 e2 now medicineName expiry_date quantity donor_email,
     o = Donate e1 e2 now medicineName expiry_date quantity donor_email /\
     let n := next_rowid (seq_medicines (cur c))
                         (map Medicine.id (medicines (cur c))) in
     c' = mkConn (mkDb (users (cur c))
                       (medicines (cur c) ++
                          [Medicine.mk n medicineName expiry_date quantity
                             (option_map User.id
                                (select_user_by_email donor_email (cur c)))
                             donor_email now])
                       (seq_users (cur c)) n)
                 None) \/
  (status r = 200 /\
   exists e1 e2 userId,
     o = DeleteAccount e1 e2 userId /\
     c' = mkConn (mkDb (filter (fun u => negb (has_id userId u))
                               (users (cur c)))
                       (map (anonymize userId) (medicines (cur c)))
                       (seq_users (cur c)) (seq_medicines (cur c)))
                 None).
Proof.
  intros Hidle. cbv zeta. destruct o; cbn [exec].
  - destruct (Z.eq_dec
                (status (fst (register bcrypt_hash e_get e_run salt fullname
                                       email password confirmPassword dob
                                       phone state c))) 201) as [E | E].
    + right. left. split; [exact E |].
      apply register_created in E as (_ & _ & _ & _ & E). cbv zeta in E.
      exists e_get, e_run, salt, fullname, email, password, confirmPassword,
        dob, phone, state.
      split; [reflexivity |]. rewrite E. cbn [snd]. unfold with_cur.
      now rewrite Hidle.
    + left. revert E. unfold register.
      destruct (negb (password =? confirmPassword)%string); [reflexivity |].
      destruct e_get; [reflexivity |].
      destruct (select_user_by_email email (cur c)); [reflexivity |].
      destruct e_run; [reflexivity |].
      destruct (insert_user _ _ _ _ _ _ _) as [msg | [lastID d]];
        [reflexivity |].
      intros E. now elim E.
  - left. unfold login. destruct e_get; [reflexivity |].
    destruct (select_user_by_email email (cur c)); [| reflexivity].
    destruct (negb _); reflexivity.
  - rewrite delete_account_idle by assumption.
    destruct e_update; [now left |]. destruct e_delete; [now left |].
    destruct (existsb (has_id userId) (users (cur c))); [| now left].
    right. right. right. split; [reflexivity |].
    exists None, None, userId. split; reflexivity.
  - left. unfold user_donations. destruct e_all; reflexivity.
  - destruct (Z.eq_dec
                (status (fst (donate e_get e_run now medicineName expiry_date
                                     quantity donor_email c))) 201)
      as [E | E].
    + right. right. left. split; [exact E |].
      apply donate_created in E as (_ & _ & E). cbv zeta in E.
      exists e_get, e_run, now, medicineName, expiry_date, quantity,
        donor_email.
      split; [reflexivity |]. rewrite E. cbn [snd]. unfold with_cur.
      now rewrite Hidle.
    + left. revert E. unfold donate.
      destruct e_get; [reflexivity |]. destruct e_run; [reflexivity |].
      unfold insert_medicine. cbn [fst status]. intros E. now elim E.
  - left. unfold list_medicines. destruct e_all; reflexivity.
Qed.

Lemma exec_seq_users (o : op) (c : conn) :
  saved c = None ->
  seq_users (cur c)
  <= seq_users (cur (snd (exec bcrypt_hash bcrypt_compare o c))).
Proof.
  intros Hidle.
  destruct (exec_cases o c Hidle)
    as [-> | [(_ & ? & ? & ? & ? & ? & ? & ? & ? & ? & ? & _ & ->)
           | [(_ & ? & ? & ? & ? & ? & ? & ? & _ & ->)
             | (_ & ? & ? & ? & _ & ->)]]];
    cbn [cur seq_users]; try apply Z.le_refl.
  apply Z.lt_le_incl, (proj1 (next_rowid_above _ _)).
Qed.

Lemma run_seq_users (os : list op) (c : conn) :
  consistent c ->
  seq_users (cur c)
  <= seq_users (cur (run bcrypt_hash bcrypt_compare os c)).
Proof.
  revert c. induction os as [|o os IH]; intros c Hc; [apply Z.le_refl |].
  eapply Z.le_trans; [apply (exec_seq_users o), Hc |].
  apply IH, exec_consistent, Hc.
Qed.

End Cases.

Lemma filter_nothing {Row : Type} (keep : Row -> bool) (rows : list Row) :
  (forall r, In r rows -> keep r = false) -> filter keep rows = [].
Proof.
  induction rows as [|r rows IH]; simpl; intros H; [reflexivity |].
  rewrite (H r (or_introl eq_refl)). apply IH. auto.
Qed.

Lemma find_snoc_none {A : Type} (p : A -> bool) (l : list A) (x : A) :
  find p l = None -> p x = false -> find p (l ++ [x]) = None.
Proof.
  intros Hl Hx. induction l as [|z l IH]; simpl in *.
  - now rewrite Hx.
  - destruct (p z); [discriminate | auto].
Qed.

Lemma existsb_after_delete (userId : Z) (us : list User.t) :
  existsb (has_id userId) (filter (fun u => negb (has_id userId u)) us)
  = false.
Proof.
  induction us as [|u us IH]; simpl; [reflexivity |].
  destruct (has_id userId u) eqn:E; simpl; [exact IH |].
  now rewrite E.
Qed.

Section Accounts.

Variable bcrypt_hash : string -> Z -> string -> string.
Variable bcrypt_compare : string -> string -> bool.

Local Abbreviation exec := (exec bcrypt_hash bcrypt_compare).
Local Abbreviation run := (run bcrypt_hash bcrypt_compare).
Local Abbreviation reachable := (reachable bcrypt_hash bcrypt_compare).
Local Abbreviation register := (register bcrypt_hash).
Local Abbreviation login := (login bcrypt_compare).

Lemma exec_user_kept (o : op) (c : conn) (i : Z) (u : User.t) :
  saved c = None ->
  user_by_id i (cur c) = Some u ->
  user_by_id i (cur (snd (exec o c))) = Some u \/
  (user_by_id i (cur (snd (exec o c))) = None /\
   exists e1 e2, o = DeleteAccount e1 e2 i).
Proof.
  intros Hidle Hu. unfold user_by_id in *.
  destruct (exec_cases bcrypt_hash bcrypt_compare o c Hidle)
    as [-> | [(_ & ? & ? & ? & ? & ? & ? & ? & ? & ? & ? & _ & ->)
           | [(_ & ? & ? & ? & ? & ? & ? & ? & _ & ->)
             | (_ & e1 & e2 & a & -> & ->)]]];
    cbn [cur users].
  - now left.
  - left. now apply find_snoc_some.
  - now left.
  - rewrite find_id_filter.
    destruct (Z.eqb_spec i a) as [-> | _]; [| now left].
    right. split; [reflexivity |]. now exists e1, e2.
Qed.

Lemma exec_user_absent (o : op) (c : conn) (i : Z) :
  saved c = None ->
  i <= seq_users (cur c) ->
  user_by_id i (cur c) = None ->
  user_by_id i (cur (snd (exec o c))) = None.
Proof.
  intros Hidle Hi Hu. unfold user_by_id in *.
  destruct (exec_cases bcrypt_hash bcrypt_compare o c Hidle)
    as [-> | [(_ & ? & ? & ? & ? & ? & ? & ? & ? & ? & ? & _ & ->)
           | [(_ & ? & ? & ? & ? & ? & ? & ? & _ & ->)
             | (_ & e1 & e2 & a & _ & ->)]]];
    cbn [cur users]; try assumption.
  - apply find_snoc_none; [assumption |].
    unfold has_id. cbn [User.id]. apply Z.eqb_neq.
    pose proof (proj1 (next_rowid_above (seq_users (cur c))
                         (map User.id (users (cur c))))).
    lia.
  - rewrite find_id_filter, Hu. now destruct (i =? a).
Qed.

Lemma run_user_absent (os : list op) (c : conn) (i : Z) :
  consistent c ->
  i <= seq_users (cur c) ->
  user_by_id i (cur c) = None ->
  user_by_id i (cur (run os c)) = None.
Proof.
  revert c. induction os as [|o os IH]; intros c Hc Hi Hu; [exact Hu |].
  apply IH.
  - now apply exec_consistent.
  - eapply Z.le_trans; [exact Hi |].
    apply (exec_seq_users bcrypt_hash bcrypt_compare o), Hc.
  - apply exec_user_absent; [apply Hc | assumption | assumption].
Qed.

(** ** Registration *)

(** X1.  When bcrypt verifies the password against the hash it made of it,
    a registration answered 201 is followed by a successful login with the
    same email and password, which returns the userId the registration
    returned. *)
Theorem register_then_login (e_get e_run : fault)
    (salt fullname email password confirmPassword dob phone state : string)
    (c : conn) :
  bcrypt_compare password (bcrypt_hash password 10 salt) = true ->
  status (fst (register e_get e_run salt fullname email password
                        confirmPassword dob phone state c)) = 201 ->
  exists n,
    fst (register e_get e_run salt fullname email password confirmPassword
                  dob phone state c)
    = mkResp 201 (BObj [("message", VText "User registered successfully");
                        ("userId", VInt n)]) /\
    fst (login None email password
               (snd (register e_get e_run salt fullname email password
                              confirmPassword dob phone state c)))
    = mkResp 200 (BObj [("message", VText "Login successful");
                        ("userId", VInt n);
                        ("email", VText email)]).
Proof.
  intros Hverify H.
  apply register_created in H as (_ & _ & _ & Hsel & E).
  cbv zeta in E. rewrite E. cbn [fst snd].
  eexists. split; [reflexivity |].
  unfold login, select_user_by_email. cbn [with_cur cur users].
  rewrite (find_snoc_new (email_is email) _ _ Hsel)
    by (unfold email_is; apply String.eqb_refl).
  cbn [User.password User.id User.email]. now rewrite Hverify.
Qed.

End Accounts.

Section Ledger.

Variable bcrypt_hash : string -> Z -> string -> string.
Variable bcrypt_compare : string -> string -> bool.

Local Abbreviation exec := (exec bcrypt_hash bcrypt_compare).
Local Abbreviation run := (run bcrypt_hash bcrypt_compare).
Local Abbreviation reachable := (reachable bcrypt_hash bcrypt_compare).
Local Abbreviation register := (register bcrypt_hash).
Local Abbreviation login := (login bcrypt_compare).

(** ** Accounts over time *)

(** X9.  An account row is never updated.  From a consistent store and over
    any sequence of requests, the account an id names is either the same row
    as before, or it is gone, and then the sequence holds a DELETE of that
    id. *)
Theorem account_row_immutable (os : list op) (c : conn) (i : Z)
    (u : User.t) :
  consistent c ->
  user_by_id i (cur c) = Some u ->
  user_by_id i (cur (run os c)) = Some u \/
  (user_by_id i (cur (run os c)) = None /\
   exists e1 e2, In (DeleteAccount e1 e2 i) os).
Proof.
  revert c. induction os as [|o os IH]; intros c Hc Hu; [now left |].
  pose proof (exec_consistent bcrypt_hash bcrypt_compare o c Hc) as Hc'.
  destruct (exec_user_kept bcrypt_hash bcrypt_compare o c i u
              (wf_idle c (consistent_wf c Hc)) Hu)
    as [Hkept | (Hgone & e1 & e2 & ->)].
  - destruct (IH _ Hc' Hkept) as [H | (H & e1 & e2 & Hin)]; [now left |].
    right. split; [exact H |]. exists e1, e2. now right.
  - right. split; [| exists e1, e2; now left].
    apply (run_user_absent bcrypt_hash bcrypt_compare os
             (snd (exec (DeleteAccount e1 e2 i) c)) i); try assumption.
    eapply Z.le_trans;
      [| apply (exec_seq_users bcrypt_hash bcrypt_compare), Hc].
    unfold user_by_id in Hu. apply find_some in Hu as [Hin Hid].
    unfold has_id in Hid. apply Z.eqb_eq in Hid. subst i.
    now apply (consistent_user_seq c Hc).
Qed.

(** X10.  After DELETE /users/:userId has answered 200 for an account, a
    login with that account's email gets the 400 'Invalid email or password'
    whatever the password, and the email can be registered again: a
    registration of it whose statements report no failure is answered 201. *)
Theorem deleted_account_cannot_login (e_update e_delete : fault)
    (u : User.t) (c : conn)
    (password salt fullname password' dob phone state : string) :
  wf c ->
  In u (users (cur c)) ->
  status (fst (delete_account e_update e_delete (User.id u) c)) = 200 ->
  let c' := snd (delete_account e_update e_delete (User.id u) c) in
  fst (login None (User.email u) password c')
  = mkResp 400 (error_body "Invalid email or password") /\
  status (fst (register None None salt fullname (User.email u) password'
                        password' dob phone state c')) = 201.
Proof.
  intros Hwf Hu. rewrite delete_account_idle by apply Hwf.
  destruct e_update; [discriminate |]. destruct e_delete; [discriminate |].
  destruct (existsb (has_id (User.id u)) (users (cur c))); [| discriminate].
  intros _. cbv zeta. cbn [snd].
  assert (Hfind : find (email_is (User.email u))
                       (filter (fun v => negb (has_id (User.id u) v))
                               (users (cur c))) = None).
  { apply find_email_absent. intros v Hv He.
    apply filter_In in Hv as [Hv Hid].
    assert (v = u)
      by (apply (distinct_keys_inj User.email (users (cur c)));
          [apply Hwf | assumption | assumption | assumption]).
    subst v. unfold has_id in Hid. now rewrite Z.eqb_refl in Hid. }
  split.
  - unfold login, select_user_by_email. cbn [cur users].
    now rewrite Hfind.
  - unfold register, select_user_by_email. rewrite String.eqb_refl.
    cbn [negb cur users]. rewrite Hfind.
    unfold insert_user. cbn [users]. apply find_email_none in Hfind.
    now rewrite Hfind.
Qed.

(** X11.  Deleting the same account a second time: once DELETE
    /users/:userId has answered 200, the same request again is answered 404
    'User not found' and changes nothing. *)
Theorem delete_twice_not_found (e_update e_delete : fault) (userId : Z)
    (c : conn) :
  saved c = None ->
  status (fst (delete_account e_update e_delete userId c)) = 200 ->
  let c' := snd (delete_account e_update e_delete userId c) in
  delete_account None None userId c'
  = (mkResp 404 (error_body "User not found"), c').
Proof.
  intros Hidle. rewrite delete_account_idle by assumption.
  destruct e_update; [discriminate |]. destruct e_delete; [discriminate |].
  destruct (existsb (has_id userId) (users (cur c))); [| discriminate].
  intros _. cbv zeta. cbn [snd].
  rewrite delete_account_idle by reflexivity.
  cbn [cur users]. now rewrite existsb_after_delete.
Qed.

(** ** Failed requests and reads *)

(** X8.  No partial effects: on a connection with no transaction open, a
    request answered with a status of 400 or more leaves the connection
    exactly as it was, and so do the login and the two listings whatever
    they answer. *)
Theorem store_changes_only_on_success (o : op) (c : conn) :
  saved c = None ->
  (400 <= status (fst (exec o c)) -> snd (exec o c) = c) /\
  match o with
  | Login _ _ _ | UserDonations _ _ | ListMedicines _ => snd (exec o c) = c
  | _ => True
  end.
Proof.
  intros Hidle.
  destruct (exec_cases bcrypt_hash bcrypt_compare o c Hidle)
    as [E | [(Hs & ? & ? & ? & ? & ? & ? & ? & ? & ? & ? & -> & _)
           | [(Hs & ? & ? & ? & ? & ? & ? & ? & -> & _)
             | (Hs & ? & ? & ? & -> & _)]]].
  - split; [intros _; exact E |]. destruct o; auto.
  - split; [rewrite Hs; lia | exact I].
  - split; [rewrite Hs; lia | exact I].
  - split; [rewrite Hs; lia | exact I].
Qed.

(** ** References *)

(** X4.  In every state the handlers can reach from the empty tables, a
    donor reference is live: it names an account that is in the table, and
    that account's email is the record's donor_email.  The handlers keep
    this themselves; the FOREIGN KEY clause is not enforced. *)
Theorem donor_references_are_live (c : conn) (m : Medicine.t) (a : Z) :
  reachable c ->
  In m (medicines (cur c)) ->
  Medicine.donor_id m = Some a ->
  exists u,
    user_by_id a (cur c) = Some u /\
    User.email u = Medicine.donor_email m.
Proof.
  intros Hr Hm Ha.
  pose proof (reachable_consistent bcrypt_hash bcrypt_compare c Hr) as Hc.
  destruct (consistent_refs c Hc m a Hm Ha) as (u & Hu & <- & He).
  exists u. split; [| exact He].
  apply find_id_unique; [apply Hc | exact Hu].
Qed.

End Ledger.

(** ** Donations and listings *)

(** X7.  A donation whose donor_email is the email of an account, made
    with no statement failing, is answered 201 and is then in that
    account's history, and in the listing with the account's full name as
    donor_name. *)
Theorem donation_appears_under_donor (now medicineName expiry_date : string)
    (quantity : Z) (u : User.t) (c : conn) :
  wf c ->
  In u (users (cur c)) ->
  let r := donate None None now medicineName expiry_date quantity
                  (User.email u) c in
  exists n history listing,
    fst r = mkResp 201 (BObj [("message",
                               VText "Medicine donated successfully");
                              ("donationId", VInt n)]) /\
    fst (user_donations None (User.id u) (snd r))
    = mkResp 200 (BArr history) /\
    In [("id", VInt n); ("name", VText medicineName);
        ("expiry_date", VText expiry_date); ("quantity", VInt quantity);
        ("donation_date", VText now)] history /\
    fst (list_medicines None (snd r)) = mkResp 200 (BArr listing) /\
    In [("id", VInt n); ("name", VText medicineName);
        ("expiry_date", VText expiry_date); ("quantity", VInt quantity);
        ("donation_date", VText now);
        ("donor_email", VText (User.email u));
        ("donor_name", VText (User.fullname u))] listing.
Proof.
  intros Hwf Hu. cbv zeta.
  unfold donate, insert_medicine, select_user_by_email.
  rewrite (find_email_unique (User.email u) _ u (wf_emails c Hwf) Hu eq_refl).
  cbn [fst snd with_cur cur user_donations list_medicines].
  set (m := Medicine.mk _ medicineName expiry_date quantity
                        (Some (User.id u)) (User.email u) now).
  eexists. eexists. eexists.
  split; [reflexivity |]. split; [reflexivity |]. split; [| split].
  - apply in_map_iff. exists m. split; [reflexivity |].
    unfold select_donations. apply order_by_desc_In.
    cbn [medicines]. apply filter_In. split.
    + apply in_or_app. right. now left.
    + unfold donated_by. cbn. apply Z.eqb_refl.
  - reflexivity.
  - apply in_map_iff. exists (m, Some u). split; [reflexivity |].
    unfold select_medicines. apply order_by_desc_In.
    cbn [medicines users].
    apply left_join_named; [apply Hwf | | exact Hu | reflexivity].
    apply in_or_app. right. now left.
Qed.

(** X17.  A donation whose donor_email no account has, made with no
    statement failing, is answered 201, is listed with donor_name null, and
    enters nobody's history: every account's history is what it was. *)
Theorem unmatched_donation_in_no_history (now medicineName expiry_date : string)
    (quantity : Z) (donor_email : string) (c : conn) :
  (forall u, In u (users (cur c)) -> User.email u <> donor_email) ->
  let r := donate None None now medicineName expiry_date quantity
                  donor_email c in
  exists n listing,
    fst r = mkResp 201 (BObj [("message",
                               VText "Medicine donated successfully");
                              ("donationId", VInt n)]) /\
    fst (list_medicines None (snd r)) = mkResp 200 (BArr listing) /\
    In [("id", VInt n); ("name", VText medicineName);
        ("expiry_date", VText expiry_date); ("quantity", VInt quantity);
        ("donation_date", VText now);
        ("donor_email", VText donor_email);
        ("donor_name", VNull)] listing /\
    forall userId,
      fst (user_donations None userId (snd r))
      = fst (user_donations None userId c).
Proof.
  intros Hnone. cbv zeta.
  unfold donate, insert_medicine, select_user_by_email.
  rewrite (find_email_absent donor_email _ Hnone).
  cbn [fst snd with_cur cur user_donations list_medicines].
  set (m := Medicine.mk _ medicineName expiry_date quantity None donor_email
                        now).
  eexists. eexists.
  split; [reflexivity |]. split; [reflexivity |]. split.
  - apply in_map_iff. exists (m, None). split; [reflexivity |].
    unfold select_medicines. apply order_by_desc_In. cbn [medicines users].
    apply left_join_anonymous; [| reflexivity].
    apply in_or_app. right. now left.
  - intros userId. unfold select_donations. cbn [medicines].
    rewrite filter_app. cbn [filter]. unfold donated_by at 2.
    cbn [Medicine.donor_id m]. now rewrite app_nil_r.
Qed.

(** ** Deleting one account leaves the others alone *)

Lemma delete_removes_one (userId : Z) (us : list User.t) :
  NoDup (map User.id us) ->
  existsb (has_id userId) us = true ->
  S (List.length (filter (fun u => negb (has_id userId u)) us))
  = List.length us.
Proof.
  induction us as [|u us IH]; simpl; [discriminate |].
  intros Hd. inversion Hd as [|? ? Hu Hd']; subst.
  destruct (has_id userId u) eqn:E; simpl.
  - intros _. f_equal. f_equal.
    assert (Hall : forall v, In v us -> negb (has_id userId v) = true).
    { intros v Hv. destruct (has_id userId v) eqn:Ev; [| reflexivity].
      exfalso. apply Hu. unfold has_id in E, Ev.
      apply Z.eqb_eq in E, Ev. rewrite E, <- Ev. now apply in_map. }
    clear - Hall. induction us as [|v us IH]; simpl; [reflexivity |].
    rewrite (Hall v (or_introl eq_refl)). f_equal. apply IH.
    intros w Hw. apply Hall. now right.
  - intros H. f_equal. now apply IH.
Qed.

(** X16.  DELETE /users/:userId answered 200 removes exactly one account
    row and touches nothing that belongs to another account: every other
    account row is still in the table, and every donation record that did
    not reference the deleted account is still there unchanged, reference
    included. *)
Theorem delete_account_spares_others (e_update e_delete : fault)
    (userId : Z) (c : conn) :
  wf c ->
  status (fst (delete_account e_update e_delete userId c)) = 200 ->
  let c' := snd (delete_account e_update e_delete userId c) in
  S (List.length (users (cur c'))) = List.length (users (cur c)) /\
  (forall u, In u (users (cur c)) -> User.id u <> userId ->
             In u (users (cur c'))) /\
  (forall m, In m (medicines (cur c)) ->
             Medicine.donor_id m <> Some userId ->
             In m (medicines (cur c'))).
Proof.
  intros Hwf. rewrite delete_account_idle by apply Hwf.
  destruct e_update; [discriminate |]. destruct e_delete; [discriminate |].
  destruct (existsb (has_id userId) (users (cur c))) eqn:Hex;
    [| discriminate].
  intros _. cbv zeta. cbn [snd cur users medicines].
  split; [| split].
  - apply delete_removes_one; [apply Hwf | exact Hex].
  - intros u Hu Hid. apply filter_In. split; [exact Hu |].
    unfold has_id. now destruct (Z.eqb_spec (User.id u) userId).
  - intros m Hm Href. apply in_map_iff. exists m. split; [| exact Hm].
    unfold anonymize, donated_by.
    destruct (Medicine.donor_id m) as [a |]; [| reflexivity].
    destruct (Z.eqb_spec a userId) as [-> | _]; [| reflexivity].
    now elim Href.
Qed.

Section Uniqueness.

Variable bcrypt_hash : string -> Z -> string -> string.
Variable bcrypt_compare : string -> string -> bool.

(** X15.  In every state the handlers can reach from the empty tables, two
    account rows with the same email are the same row, and so are two
    account rows with the same id. *)
Theorem one_account_per_email (c : conn) (u v : User.t) :
  reachable bcrypt_hash bcrypt_compare c ->
  In u (users (cur c)) ->
  In v (users (cur c)) ->
  User.email u = User.email v \/ User.id u = User.id v ->
  u = v.
Proof.
  intros Hr Hu Hv [E | E];
    pose proof (reachable_wf bcrypt_hash bcrypt_compare c Hr) as Hwf.
  - apply (distinct_keys_inj User.email (users (cur c)));
      [apply Hwf | assumption..].
  - apply (distinct_keys_inj User.id (users (cur c)));
      [apply Hwf | assumption..].
Qed.

End Uniqueness.

(** ** Two registrations of one email *)

Section Registrations.

Variable bcrypt_hash : string -> Z -> string -> string.
Variable bcrypt_compare : string -> string -> bool.

Local Abbreviation exec := (exec bcrypt_hash bcrypt_compare).
Local Abbreviation run := (run bcrypt_hash bcrypt_compare).
Local Abbreviation register := (register bcrypt_hash).
Local Abbreviation register_lookup := (register_lookup bcrypt_hash).

(** The handler is its two callbacks run one after the other. *)
Lemma register_in_two_steps (e_get e_run : fault)
    (salt fullname email password confirmPassword dob phone state : string)
    (c : conn) :
  register e_get e_run salt fullname email password confirmPassword dob phone
           state c
  = match register_lookup e_get salt fullname email password confirmPassword
                          dob phone state c with
    | inl r => (r, c)
    | inr p => register_insert e_run p c
    end.
Proof.
  unfold register, register_lookup, register_insert.
  destruct (negb (password =? confirmPassword)%string); [reflexivity |].
  destruct e_get; [reflexivity |].
  destruct (select_user_by_email email (cur c)); reflexivity.
Qed.



(** X3.  Account ids are never given out twice: the row a registration
    answered 201 stores has an id larger than the id of every account that
    was in the table at any earlier time, also of accounts deleted in
    between. *)
Theorem account_ids_never_reused (os : list op) (c : conn) (u : User.t)
    (e_get e_run : fault)
    (salt fullname email password confirmPassword dob phone state : string) :
  consistent c ->
  In u (users (cur c)) ->
  status (fst (register e_get e_run salt fullname email password
                        confirmPassword dob phone state (run os c))) = 201 ->
  exists row,
    users (cur (snd (register e_get e_run salt fullname email password
                              confirmPassword dob phone state (run os c))))
    = users (cur (run os c)) ++ [row] /\
    User.email row = email /\
    User.id u < User.id row.
Proof.
  intros Hc Hu H.
  apply register_created in H as (_ & _ & _ & _ & E).
  cbv zeta in E. rewrite E. cbn [snd with_cur cur users].
  eexists. split; [reflexivity |]. split; [reflexivity |].
  cbn [User.id].
  pose proof (consistent_user_seq c Hc u Hu).
  pose proof (run_seq_users bcrypt_hash bcrypt_compare os c Hc).
  pose proof (proj1 (next_rowid_above (seq_users (cur (run os c)))
                       (map User.id (users (cur (run os c)))))).
  lia.
Qed.

(** X6.  A new account starts with an empty donation history: after a
    registration answered 201 on a consistent store, the history of the id
    of the row it stored is the empty array. *)
Theorem new_account_empty_history (e_get e_run : fault)
    (salt fullname email password confirmPassword dob phone state : string)
    (c : conn) :
  consistent c ->
  status (fst (register e_get e_run salt fullname email password
                        confirmPassword dob phone state c)) = 201 ->
  let c' := snd (register e_get e_run salt fullname email password
                          confirmPassword dob phone state c) in
  exists row,
    users (cur c') = users (cur c) ++ [row] /\
    User.email row = email /\
    user_donations None (User.id row) c' = (mkResp 200 (BArr []), c').
Proof.
  intros Hc H. apply register_created in H as (_ & _ & _ & _ & E).
  cbv zeta in E. cbv zeta. rewrite E. cbn [snd].
  eexists. split; [reflexivity |]. split; [reflexivity |].
  unfold user_donations, select_donations.
  cbn [with_cur cur medicines User.id].
  rewrite filter_nothing; [reflexivity |].
  intros m Hm. unfold donated_by.
  destruct (Medicine.donor_id m) as [a |] eqn:Ha; [| reflexivity].
  apply Z.eqb_neq. intros ->.
  destruct (consistent_refs c Hc m _ Hm Ha) as (v & Hv & Hid & _).
  pose proof (proj2 (next_rowid_above (seq_users (cur c))
                       (map User.id (users (cur c))))
                    (User.id v) (in_map User.id _ _ Hv)).
  lia.
Qed.

(** [post_login] with a password is [login]. *)
Lemma post_login_with_password (e_get : fault) (email password : string)
    (c : conn) :
  post_login bcrypt_compare e_get email (Some password) c
  = (Answered (fst (login bcrypt_compare e_get email password c)),
     snd (login bcrypt_compare e_get email password c)).
Proof.
  unfold post_login, login. destruct e_get; [reflexivity |].
  destruct (select_user_by_email email (cur c)); [| reflexivity].
  destruct (negb _); reflexivity.
Qed.

End Registrations.

(** ** Listings as the client receives them *)

Lemma sorted_rows {Row Out : Type} (before : Row -> Row -> Prop)
    (before' : Out -> Out -> Prop) (project : Row -> Out)
    (rows : list Row) :
  (forall a b, before a b -> before' (project a) (project b)) ->
  Sorted before rows -> Sorted before' (map project rows).
Proof.
  intros Hproject Hsorted.
  induction Hsorted as [|r rows _ IH Hhd]; simpl; constructor;
    [exact IH |].
  destruct Hhd; simpl; constructor. now apply Hproject.
Qed.

(** C10.  With user ids distinct (the PRIMARY KEY), the array GET /medicines
    answers with holds one row per donation record, all of them, each with
    the record's columns and as donor_name the full name of the account the
    donor reference names (null when there is none); the array GET
    /users/:userId/donations answers with holds one row per record whose
    donor reference is [userId], and no other.  In both arrays the
    donation_date of a row is at least that of the next row. *)
Theorem listings_complete_and_ordered (userId : Z) (c : conn) :
  wf c ->
  exists listing history,
    list_medicines None c = (mkResp 200 (BArr listing), c) /\
    Permutation listing
      (map (fun m =>
              [("id", VInt (Medicine.id m));
               ("name", VText (Medicine.name m));
               ("expiry_date", VText (Medicine.expiry_date m));
               ("quantity", VInt (Medicine.quantity m));
               ("donation_date", VText (Medicine.donation_date m));
               ("donor_email", VText (Medicine.donor_email m));
               ("donor_name",
                match Medicine.donor_id m with
                | Some a =>
                    match user_by_id a (cur c) with
                    | Some u => VText (User.fullname u)
                    | None => VNull
                    end
                | None => VNull
                end)])
           (medicines (cur c))) /\
    Sorted (fun row next =>
              exists d d',
                field "donation_date" row = Some (VText d) /\
                field "donation_date" next = Some (VText d') /\
                String.leb d' d = true)
           listing /\
    user_donations None userId c = (mkResp 200 (BArr history), c) /\
    Permutation history
      (map (fun m =>
              [("id", VInt (Medicine.id m));
               ("name", VText (Medicine.name m));
               ("expiry_date", VText (Medicine.expiry_date m));
               ("quantity", VInt (Medicine.quantity m));
               ("donation_date", VText (Medicine.donation_date m))])
           (filter (fun m =>
                      match Medicine.donor_id m with
                      | Some a => a =? userId
                      | None => false
                      end)
                   (medicines (cur c)))) /\
    Sorted (fun row next =>
              exists d d',
                field "donation_date" row = Some (VText d) /\
                field "donation_date" next = Some (VText d') /\
                String.leb d' d = true)
           history.
Proof.
  intros Hwf.
  exists (map medicine_row (select_medicines (cur c))).
  exists (map donation_row (select_donations userId (cur c))).
  split; [reflexivity |]. split; [| split; [| split; [| split]]].
  - unfold select_medicines.
    eapply perm_trans;
      [apply Permutation_map, order_by_desc_perm |].
    rewrite left_join_lookup by apply Hwf.
    rewrite map_map.
    erewrite map_ext; [apply Permutation_refl |].
    intros m. unfold medicine_row, donor_name, user_by_id.
    cbn [fst snd]. rewrite find_joins.
    destruct (Medicine.donor_id m) as [a |]; [| reflexivity].
    destruct (find (has_id a) (users (cur c))); reflexivity.
  - apply (sorted_rows
             (fun a b => String.leb (joined_date b) (joined_date a) = true)).
    + intros a b Hab. exists (joined_date a), (joined_date b).
      repeat split. exact Hab.
    + apply order_by_desc_sorted.
  - reflexivity.
  - unfold select_donations.
    apply Permutation_map, order_by_desc_perm.
  - apply (sorted_rows
             (fun a b => String.leb (Medicine.donation_date b)
                                    (Medicine.donation_date a) = true)).
    + intros a b Hab.
      exists (Medicine.donation_date a), (Medicine.donation_date b).
      repeat split. exact Hab.
    + apply order_by_desc_sorted.
Qed.

(** ** The demo page *)

Section PageProperties.

Variable number : Type.
Variable parseInt : string -> Z -> number.
Variable template : number -> string.

Lemma page_render (ms : list (Page.medicine number)) (lis : list string) :
  fold_left (fun lis m => lis ++ [Page.textContent number template m]) ms lis
  = lis ++ map (Page.textContent number template) ms.
Proof.
  revert lis. induction ms as [|m ms IH]; intros lis; simpl.
  - now rewrite app_nil_r.
  - rewrite IH, <- app_assoc. reflexivity.
Qed.

Lemma page_submits (events : list (string * string))
    (p : Page.t number) :
  Page.items number p
  = map (Page.textContent number template) (Page.medicines number p) ->
  let p' := Page.submits number parseInt template events p in
  Page.medicines number p'
  = Page.medicines number p ++
      map (fun e => Page.mkMedicine number (fst e) (parseInt (snd e) 10))
          (filter (fun e => Page.truthy (fst e) && Page.truthy (snd e))
                  events) /\
  Page.items number p'
  = map (Page.textContent number template) (Page.medicines number p').
Proof.
  revert p. induction events as [|[name qty] events IH]; intros p Hp;
    cbv zeta.
  - simpl. now rewrite app_nil_r.
  - change (Page.submits number parseInt template ((name, qty) :: events) p)
      with (Page.submits number parseInt template events
              (fst (Page.submit number parseInt template name qty p))).
    cbn [filter fst snd]. unfold Page.submit.
    destruct (Page.truthy name && Page.truthy qty); cbn [fst].
    + set (entry := Page.mkMedicine number name (parseInt qty 10)).
      set (q := Page.updateMedicinesList number template
                  (Page.mk number (Page.medicines number p ++ [entry])
                           (Page.items number p))).
      assert (Hq : Page.items number q
                   = map (Page.textContent number template)
                         (Page.medicines number q))
        by exact (page_render _ []).
      destruct (IH q Hq) as [Hm Hi].
      split; [| exact Hi].
      rewrite Hm. subst q. cbn [Page.updateMedicinesList Page.medicines map].
      now rewrite <- app_assoc.
    + exact (IH p Hp).
Qed.

(** X14.  The form of the demo page.  After any sequence of submit events
    from page load, the array holds one entry per event whose name and
    quantity were both non-empty strings, in the order of the events, with
    the quantity parsed in base 10; events with an empty field add nothing.
    Once an event was accepted the list shown has one item per entry, in the
    same order, reading 'name - quantity'; until then it is as the document
    had it. *)
Theorem page_lists_accepted_submissions (events : list (string * string))
    (shown : list string) :
  let p := Page.submits number parseInt template events
                        (Page.loaded number shown) in
  let accepted :=
    filter (fun e => negb (String.eqb (fst e) "") &&
                     negb (String.eqb (snd e) ""))
           events in
  Page.medicines number p
  = map (fun e => Page.mkMedicine number (fst e) (parseInt (snd e) 10))
        accepted /\
  Page.items number p
  = match accepted with
    | [] => shown
    | _ :: _ =>
        map (fun m => (Page.name number m ++ " - " ++
                       template (Page.quantity number m))%string)
            (Page.medicines number p)
    end.
Proof.
  cbv zeta. induction events as [|[name qty] events IH].
  - split; reflexivity.
  - change (Page.submits number parseInt template ((name, qty) :: events)
              (Page.loaded number shown))
      with (Page.submits number parseInt template events
              (fst (Page.submit number parseInt template name qty
                                (Page.loaded number shown)))).
    cbn [filter fst snd]. unfold Page.submit, Page.truthy.
    destruct (negb (name =? "")%string && negb (qty =? "")%string);
      cbn [fst]; [| exact IH].
    set (entry := Page.mkMedicine number name (parseInt qty 10)).
    set (q := Page.updateMedicinesList number template _).
    assert (Hq : Page.items number q
                 = map (Page.textContent number template)
                       (Page.medicines number q))
      by exact (page_render _ []).
    destruct (page_submits events q Hq) as [Hm Hi].
    split; [exact Hm | exact Hi].
Qed.

End PageProperties.

(** * The theorems on the sample store *)

Lemma deleted_account_donations_survive_witness :
  status (fst (delete_account None None 1 sample)) = 200 /\
  fst (user_donations None 1 (snd (delete_account None None 1 sample)))
  = mkResp 200 (BArr []) /\
  exists rows,
    fst (list_medicines None (snd (delete_account None None 1 sample)))
    = mkResp 200 (BArr rows) /\
    In [("id", VInt 3); ("name", VText "Cetirizine");
        ("expiry_date", VText "2025-09-30"); ("quantity", VInt 7);
        ("donation_date", VText "2024-05-03 08:15:00");
        ("donor_email", VText "a@x.com"); ("donor_name", VNull)] rows.
Proof.
  split; [reflexivity |].
  destruct (deleted_account_donations_survive None None 1 sample eq_refl)
    as (Hnone & rows & Hrows & Hall).
  split; [exact Hnone |].
  exists rows. split; [exact Hrows |].
  apply (Hall cetirizine); [simpl; tauto | reflexivity].
Defined.

Lemma delete_account_atomic_witness :
  saved sample = None /\
  map (Medicine.with_donor_id None)
      (medicines (cur (snd (delete_account None (Some "disk I/O error") 1
                                           sample))))
  = map (Medicine.with_donor_id None) (medicines (cur sample)).
Proof.
  split; [reflexivity |].
  exact (proj2 (delete_account_atomic None (Some "disk I/O error") 1 sample
                                      eq_refl)).
Defined.

Lemma delete_unknown_account_witness :
  saved sample = None /\
  (forall u, In u (users (cur sample)) -> User.id u <> 7) /\
  delete_account None None 7 sample
  = (mkResp 404 (error_body "User not found"), sample).
Proof.
  assert (H : forall u, In u (users (cur sample)) -> User.id u <> 7).
  { simpl. intros u [<- | [<- | []]]; discriminate. }
  split; [reflexivity |]. split; [exact H |].
  exact (proj2 (proj2 (delete_unknown_account None None 7 sample eq_refl H))).
Defined.

Lemma donate_links_by_email_witness :
  wf sample /\
  exists donor_id,
    (forall u, In u (users (cur sample)) -> User.email u = "b@x.com" ->
               donor_id = Some (User.id u)) /\
    exists lastID,
      medicines (cur (snd (donate None None "2024-06-01 12:00:00" "Paracetamol"
                                  "2026-01-01" 5 "b@x.com" sample)))
      = medicines (cur sample) ++
          [Medicine.mk lastID "Paracetamol" "2026-01-01" 5 donor_id "b@x.com"
                       "2024-06-01 12:00:00"].
Proof.
  assert (Hwf : wf sample) by sample_wf.
  split; [exact Hwf |].
  destruct (donate_links_by_email None None "2024-06-01 12:00:00"
              "Paracetamol" "2026-01-01" 5 "b@x.com" sample Hwf)
    as (donor_id & Hsome & _ & Hok & _).
  exists donor_id. split; [exact Hsome |].
  destruct (Hok eq_refl eq_refl) as (lastID & _ & _ & Hms).
  exists lastID. exact Hms.
Defined.

Lemma donate_stores_quantity_witness :
  js_exact (-3) /\
  status (fst (donate None None "2024-06-01 12:00:00" "Paracetamol"
                      "2026-01-01" (-3) "b@x.com" sample)) = 201 /\
  exists m,
    medicines (cur (snd (donate None None "2024-06-01 12:00:00" "Paracetamol"
                                "2026-01-01" (-3) "b@x.com" sample)))
    = medicines (cur sample) ++ [m] /\
    Medicine.quantity m = -3.
Proof.
  assert (H : js_exact (-3)) by (unfold js_exact; simpl; lia).
  split; [exact H |]. split; [reflexivity |].
  exact (donate_stores_quantity None None "2024-06-01 12:00:00" "Paracetamol"
                                "2026-01-01" (-3) "b@x.com" sample H eq_refl).
Defined.

(** C5 as the specification has it fails: a donation of minus three units
    on the freshly created tables is answered 201 and stored. *)
Lemma donate_accepts_nonpositive_quantity :
  donate None None "2024-06-01 12:00:00" "Aspirin" "2025-01-01" (-3) "a@x.com"
         init
  = (mkResp 201 (BObj [("message", VText "Medicine donated successfully");
                       ("donationId", VInt 1)]),
     mkConn (mkDb []
                  [Medicine.mk 1 "Aspirin" "2025-01-01" (-3) None "a@x.com"
                               "2024-06-01 12:00:00"]
                  0 1)
            None) /\
  ~ (0 < Medicine.quantity
           (Medicine.mk 1 "Aspirin" "2025-01-01" (-3) None "a@x.com"
                        "2024-06-01 12:00:00")).
Proof. split; [reflexivity | simpl; lia]. Qed.

Lemma donor_reference_one_way_witness :
  wf sample /\
  medicine_by_id 1 (cur sample) = Some aspirin /\
  exists m',
    medicine_by_id 1 (cur (run sample_hash sample_compare sample_requests
                               sample)) = Some m' /\
    (m' = aspirin \/
     exists a,
       Medicine.donor_id aspirin = Some a /\
       m' = Medicine.with_donor_id None aspirin /\
       exists e1 e2, In (DeleteAccount e1 e2 a) sample_requests).
Proof.
  assert (Hwf : wf sample) by sample_wf.
  split; [exact Hwf |]. split; [reflexivity |].
  destruct (donor_reference_one_way sample_hash sample_compare sample_requests
              sample 1 aspirin Hwf eq_refl)
    as ((m' & Hm' & _ & Hcases) & _).
  exists m'. split; [exact Hm' | exact Hcases].
Defined.

Lemma login_failures_indistinguishable_witness :
  (forall u, In u (users (cur sample)) -> User.email u <> "zoe@x.com") /\
  select_user_by_email "a@x.com" (cur sample) = Some alice /\
  sample_compare "guess" (User.password alice) = false /\
  fst (login sample_compare None "zoe@x.com" "pw1" sample)
  = fst (login sample_compare None "a@x.com" "guess" sample).
Proof.
  assert (H : forall u, In u (users (cur sample)) ->
                        User.email u <> "zoe@x.com").
  { simpl. intros u [<- | [<- | []]]; discriminate. }
  split; [exact H |]. split; [reflexivity |]. split; [reflexivity |].
  exact (proj1 (login_failures_indistinguishable sample_compare sample sample
                  "zoe@x.com" "pw1" "a@x.com" "guess" alice H eq_refl
                  eq_refl)).
Defined.

Lemma login_success_body_witness :
  status (fst (login sample_compare None "a@x.com" "pw1" sample)) = 200 /\
  exists user,
    select_user_by_email "a@x.com" (cur sample) = Some user /\
    User.email user = "a@x.com" /\
    sample_compare "pw1" (User.password user) = true /\
    login sample_compare None "a@x.com" "pw1" sample
    = (mkResp 200 (BObj [("message", VText "Login successful");
                         ("userId", VInt (User.id user));
                         ("email", VText "a@x.com")]),
       sample).
Proof.
  split; [reflexivity |].
  exact (login_success_body sample_compare None "a@x.com" "pw1" sample
                            eq_refl).
Defined.

Lemma register_then_login_witness :
  sample_compare "pw3" (sample_hash "pw3" 10 "salt") = true /\
  status (fst (register sample_hash None None "salt" "Carol" "c@x.com" "pw3"
                        "pw3" "1970-02-03" "555-0102" "Punjab" sample)) = 201
  /\
  exists n,
    fst (register sample_hash None None "salt" "Carol" "c@x.com" "pw3" "pw3"
                  "1970-02-03" "555-0102" "Punjab" sample)
    = mkResp 201 (BObj [("message", VText "User registered successfully");
                        ("userId", VInt n)]) /\
    fst (login sample_compare None "c@x.com" "pw3"
               (snd (register sample_hash None None "salt" "Carol" "c@x.com"
                              "pw3" "pw3" "1970-02-03" "555-0102" "Punjab"
                              sample)))
    = mkResp 200 (BObj [("message", VText "Login successful");
                        ("userId", VInt n);
                        ("email", VText "c@x.com")]).
Proof.
  split; [reflexivity |]. split; [reflexivity |].
  exact (register_then_login sample_hash sample_compare None None "salt"
           "Carol" "c@x.com" "pw3" "pw3" "1970-02-03" "555-0102" "Punjab"
           sample eq_refl eq_refl).
Defined.

Lemma account_row_immutable_witness :
  consistent sample /\
  user_by_id 2 (cur sample) = Some bob /\
  (user_by_id 2 (cur (run sample_hash sample_compare sample_requests sample))
   = Some bob \/
   (user_by_id 2 (cur (run sample_hash sample_compare sample_requests
                           sample)) = None /\
    exists e1 e2, In (DeleteAccount e1 e2 2) sample_requests)).
Proof.
  assert (Hc : consistent sample) by sample_consistent.
  split; [exact Hc |]. split; [reflexivity |].
  exact (account_row_immutable sample_hash sample_compare sample_requests
           sample 2 bob Hc eq_refl).
Defined.

Lemma deleted_account_cannot_login_witness :
  wf sample /\
  In alice (users (cur sample)) /\
  status (fst (delete_account None None (User.id alice) sample)) = 200 /\
  fst (login sample_compare None (User.email alice) "pw1"
             (snd (delete_account None None (User.id alice) sample)))
  = mkResp 400 (error_body "Invalid email or password") /\
  status (fst (register sample_hash None None "salt" "Alice" (User.email alice)
                        "pw9" "pw9" "1990-01-01" "555-0100" "Kerala"
                        (snd (delete_account None None (User.id alice)
                                             sample)))) = 201.
Proof.
  assert (Hwf : wf sample) by sample_wf.
  assert (Hin : In alice (users (cur sample))) by (simpl; tauto).
  split; [exact Hwf |]. split; [exact Hin |]. split; [reflexivity |].
  exact (deleted_account_cannot_login sample_hash sample_compare None None
           alice sample "pw1" "salt" "Alice" "pw9" "1990-01-01" "555-0100"
           "Kerala" Hwf Hin eq_refl).
Defined.

Lemma delete_twice_not_found_witness :
  saved sample = None /\
  status (fst (delete_account None None 1 sample)) = 200 /\
  delete_account None None 1 (snd (delete_account None None 1 sample))
  = (mkResp 404 (error_body "User not found"),
     snd (delete_account None None 1 sample)).
Proof.
  split; [reflexivity |]. split; [reflexivity |].
  exact (delete_twice_not_found None None 1 sample eq_refl eq_refl).
Defined.

Lemma store_changes_only_on_success_witness :
  saved sample = None /\
  400 <= status (fst (exec sample_hash sample_compare
                           (Register None None "salt" "Al" "a@x.com" "pw" "pw"
                                     "1990-01-01" "555-0100" "Kerala")
                           sample)) /\
  snd (exec sample_hash sample_compare
            (Register None None "salt" "Al" "a@x.com" "pw" "pw" "1990-01-01"
                      "555-0100" "Kerala")
            sample) = sample.
Proof.
  assert (H : 400 <= status (fst (exec sample_hash sample_compare
                                       (Register None None "salt" "Al"
                                                 "a@x.com" "pw" "pw"
                                                 "1990-01-01" "555-0100"
                                                 "Kerala")
                                       sample)))
    by (vm_compute; discriminate).
  split; [reflexivity |]. split; [exact H |].
  exact (proj1 (store_changes_only_on_success sample_hash sample_compare
                  (Register None None "salt" "Al" "a@x.com" "pw" "pw"
                            "1990-01-01" "555-0100" "Kerala")
                  sample eq_refl) H).
Defined.

Lemma donor_references_are_live_witness :
  reachable sample_hash sample_compare
            (run sample_hash sample_compare sample_history init) /\
  In aspirin
     (medicines (cur (run sample_hash sample_compare sample_history init))) /\
  Medicine.donor_id aspirin = Some 1 /\
  exists u,
    user_by_id 1 (cur (run sample_hash sample_compare sample_history init))
    = Some u /\
    User.email u = Medicine.donor_email aspirin.
Proof.
  assert (Hr : reachable sample_hash sample_compare
                 (run sample_hash sample_compare sample_history init)).
  { apply (reachable_step sample_hash sample_compare
             (Donate None None "2024-05-01 09:30:00" "Aspirin" "2025-01-01" 10
                     "a@x.com")).
    apply (reachable_step sample_hash sample_compare
             (Register None None "salt" "Alice" "a@x.com" "pw1" "pw1"
                       "1990-01-01" "555-0100" "Kerala")).
    apply reachable_init. }
  assert (Hin : In aspirin
                   (medicines (cur (run sample_hash sample_compare
                                        sample_history init))))
    by (simpl; tauto).
  split; [exact Hr |]. split; [exact Hin |]. split; [reflexivity |].
  exact (donor_references_are_live sample_hash sample_compare _ aspirin 1 Hr
           Hin eq_refl).
Defined.

Lemma donation_appears_under_donor_witness :
  wf sample /\
  In bob (users (cur sample)) /\
  exists n history,
    fst (user_donations None (User.id bob)
           (snd (donate None None "2024-06-01 12:00:00" "Paracetamol"
                        "2026-01-01" 5 (User.email bob) sample)))
    = mkResp 200 (BArr history) /\
    In [("id", VInt n); ("name", VText "Paracetamol");
        ("expiry_date", VText "2026-01-01"); ("quantity", VInt 5);
        ("donation_date", VText "2024-06-01 12:00:00")] history.
Proof.
  assert (Hwf : wf sample) by sample_wf.
  assert (Hin : In bob (users (cur sample))) by (simpl; tauto).
  split; [exact Hwf |]. split; [exact Hin |].
  destruct (donation_appears_under_donor "2024-06-01 12:00:00" "Paracetamol"
              "2026-01-01" 5 bob sample Hwf Hin)
    as (n & history & listing & _ & Hh & Hrow & _).
  exists n, history. split; [exact Hh | exact Hrow].
Defined.

Lemma unmatched_donation_in_no_history_witness :
  (forall u, In u (users (cur sample)) -> User.email u <> "zoe@x.com") /\
  fst (user_donations None 1
         (snd (donate None None "2024-06-01 12:00:00" "Paracetamol"
                      "2026-01-01" 5 "zoe@x.com" sample)))
  = fst (user_donations None 1 sample).
Proof.
  assert (H : forall u, In u (users (cur sample)) ->
                        User.email u <> "zoe@x.com").
  { simpl. intros u [<- | [<- | []]]; discriminate. }
  split; [exact H |].
  destruct (unmatched_donation_in_no_history "2024-06-01 12:00:00"
              "Paracetamol" "2026-01-01" 5 "zoe@x.com" sample H)
    as (n & listing & _ & _ & _ & Hsame).
  exact (Hsame 1).
Defined.

Lemma delete_account_spares_others_witness :
  wf sample /\
  status (fst (delete_account None None 1 sample)) = 200 /\
  S (List.length (users (cur (snd (delete_account None None 1 sample)))))
  = List.length (users (cur sample)) /\
  In bob (users (cur (snd (delete_account None None 1 sample)))) /\
  In ibuprofen (medicines (cur (snd (delete_account None None 1 sample)))).
Proof.
  assert (Hwf : wf sample) by sample_wf.
  split; [exact Hwf |]. split; [reflexivity |].
  destruct (delete_account_spares_others None None 1 sample Hwf eq_refl)
    as (Hlen & Hus & Hms).
  split; [exact Hlen |]. split.
  - apply (Hus bob); [simpl; tauto | discriminate].
  - apply (Hms ibuprofen); [simpl; tauto | discriminate].
Defined.

Lemma one_account_per_email_witness :
  reachable sample_hash sample_compare
            (run sample_hash sample_compare sample_history init) /\
  In alice
     (users (cur (run sample_hash sample_compare sample_history init))) /\
  (User.email alice = User.email alice \/ User.id alice = User.id alice) /\
  alice = alice.
Proof.
  assert (Hr : reachable sample_hash sample_compare
                 (run sample_hash sample_compare sample_history init)).
  { apply (reachable_step sample_hash sample_compare
             (Donate None None "2024-05-01 09:30:00" "Aspirin" "2025-01-01" 10
                     "a@x.com")).
    apply (reachable_step sample_hash sample_compare
             (Register None None "salt" "Alice" "a@x.com" "pw1" "pw1"
                       "1990-01-01" "555-0100" "Kerala")).
    apply reachable_init. }
  assert (Hin : In alice
                   (users (cur (run sample_hash sample_compare sample_history
                                    init))))
    by (simpl; tauto).
  split; [exact Hr |]. split; [exact Hin |].
  split; [left; reflexivity |].
  exact (one_account_per_email sample_hash sample_compare _ alice alice Hr Hin
           Hin (or_introl eq_refl)).
Defined.



(** C7.  A login that sends no password.  For an email no account has the
    answer is the 400 'Invalid email or password'; for the email of an
    account the promise of [bcrypt.compare] is rejected outside any [try]
    and the request gets no answer.  The two cases are told apart. *)
Lemma login_without_password_tells_apart :
  post_login sample_compare None "zoe@x.com" None sample
  = (Answered (mkResp 400 (BObj [("error",
                                  VText "Invalid email or password")])),
     sample) /\
  post_login sample_compare None "a@x.com" None sample = (Unhandled, sample).
Proof. split; reflexivity. Qed.

Lemma listings_complete_and_ordered_witness :
  wf sample /\
  exists listing history,
    list_medicines None sample = (mkResp 200 (BArr listing), sample) /\
    Permutation listing
      [[("id", VInt 1); ("name", VText "Aspirin");
        ("expiry_date", VText "2025-01-01"); ("quantity", VInt 10);
        ("donation_date", VText "2024-05-01 09:30:00");
        ("donor_email", VText "a@x.com"); ("donor_name", VText "Alice")];
       [("id", VInt 2); ("name", VText "Ibuprofen");
        ("expiry_date", VText "2026-03-01"); ("quantity", VInt 4);
        ("donation_date", VText "2024-05-02 11:00:00");
        ("donor_email", VText "nobody@x.com"); ("donor_name", VNull)];
       [("id", VInt 3); ("name", VText "Cetirizine");
        ("expiry_date", VText "2025-09-30"); ("quantity", VInt 7);
        ("donation_date", VText "2024-05-03 08:15:00");
        ("donor_email", VText "a@x.com"); ("donor_name", VText "Alice")]] /\
    user_donations None 1 sample = (mkResp 200 (BArr history), sample) /\
    Permutation history
      [[("id", VInt 1); ("name", VText "Aspirin");
        ("expiry_date", VText "2025-01-01"); ("quantity", VInt 10);
        ("donation_date", VText "2024-05-01 09:30:00")];
       [("id", VInt 3); ("name", VText "Cetirizine");
        ("expiry_date", VText "2025-09-30"); ("quantity", VInt 7);
        ("donation_date", VText "2024-05-03 08:15:00")]].
Proof.
  assert (Hwf : wf sample) by sample_wf.
  split; [exact Hwf |].
  destruct (listings_complete_and_ordered 1 sample Hwf)
    as (listing & history & Hl & Hlp & _ & Hh & Hhp & _).
  exists listing, history.
  split; [exact Hl |]. split; [exact Hlp |]. split; [exact Hh | exact Hhp].
Defined.

Lemma account_ids_never_reused_witness :
  consistent sample /\
  In alice (users (cur sample)) /\
  status (fst (register sample_hash None None "salt" "Dan" "d@x.com" "pw4"
                        "pw4" "1980-01-01" "555-0103" "Bihar"
                        (run sample_hash sample_compare sample_requests
                             sample))) = 201 /\
  exists row,
    users (cur (snd (register sample_hash None None "salt" "Dan" "d@x.com"
                              "pw4" "pw4" "1980-01-01" "555-0103" "Bihar"
                              (run sample_hash sample_compare sample_requests
                                   sample))))
    = users (cur (run sample_hash sample_compare sample_requests sample))
        ++ [row] /\
    User.email row = "d@x.com" /\
    User.id alice < User.id row.
Proof.
  assert (Hc : consistent sample) by sample_consistent.
  assert (Hin : In alice (users (cur sample))) by (simpl; tauto).
  split; [exact Hc |]. split; [exact Hin |]. split; [reflexivity |].
  exact (account_ids_never_reused sample_hash sample_compare sample_requests
           sample alice None None "salt" "Dan" "d@x.com" "pw4" "pw4"
           "1980-01-01" "555-0103" "Bihar" Hc Hin eq_refl).
Defined.

Lemma new_account_empty_history_witness :
  consistent sample /\
  status (fst (register sample_hash None None "salt" "Carol" "c@x.com" "pw3"
                        "pw3" "1970-02-03" "555-0102" "Punjab" sample)) = 201
  /\
  exists row,
    users (cur (snd (register sample_hash None None "salt" "Carol" "c@x.com"
                              "pw3" "pw3" "1970-02-03" "555-0102" "Punjab"
                              sample)))
    = users (cur sample) ++ [row] /\
    User.email row = "c@x.com" /\
    user_donations None (User.id row)
      (snd (register sample_hash None None "salt" "Carol" "c@x.com" "pw3"
                     "pw3" "1970-02-03" "555-0102" "Punjab" sample))
    = (mkResp 200 (BArr []),
       snd (register sample_hash None None "salt" "Carol" "c@x.com" "pw3"
                     "pw3" "1970-02-03" "555-0102" "Punjab" sample)).
Proof.
  assert (Hc : consistent sample) by sample_consistent.
  split; [exact Hc |]. split; [reflexivity |].
  exact (new_account_empty_history sample_hash None None "salt" "Carol"
           "c@x.com" "pw3" "pw3" "1970-02-03" "555-0102" "Punjab" sample Hc
           eq_refl).
Defined.
